(** * I2CDriver: the TWI (I2C) driver of the ATmega 328P

    A shallow embedding of [I2CDriver.cpp] / [I2CDriver.hpp].  The driver's
    file-scope variables and the TWI registers it touches form an explicit
    state; the facade functions and the interrupt routine are state
    transformers.  Every store to [TWCR], [TWDR] and to the caller's memory is
    also appended to a history, so that statements about "what was issued on
    the bus" can be made about the code itself.

    [I2C_MODE] selects at build time between the master and the slave
    variant; the two variants are embedded as the modules [Master] and
    [Slave]. *)

From Stdlib Require Import ZArith Lia Bool.
From stdpp Require Import base list numbers.

Open Scope Z_scope.

(** ** Enumerations of I2CDriver.hpp *)

Inductive tI2CDriverError : Set :=
  I2C_OK | I2C_MISSING_ACK | I2C_LOST_ARBITRATION | I2C_BUS_ERROR.

Inductive tI2CDriverState : Set :=
  I2C_READY | I2C_MASTER_TRANSMIT | I2C_MASTER_RECEIVE
| I2C_SLAVE_RECEIVE | I2C_SLAVE_TRANSMIT.

Inductive tI2CTypeOfCommunication : Set :=
  MASTER_SEND | MASTER_RECEIVED | SLAVE_SEND | SLAVE_RECEIVED.

Definition is_ready (d : tI2CDriverState) : bool :=
  match d with I2C_READY => true | _ => false end.

(** ** Status codes ([tI2CStatus]) *)

Definition MASTER_START_TRANSMISSION_DONE_08 : Z := 0x08.
Definition MASTER_REPEATED_START_TRANSMISSION_DONE_10 : Z := 0x10.
Definition MASTER_ARBITRATION_LOST_38 : Z := 0x38.
Definition MS_STARTBIT_TRANSMITTED_AND_ACK_RECEIVED_18 : Z := 0x18.
Definition MS_STARTBIT_TRANSMITTED_AND_NO_ACK_RECEIVED_20 : Z := 0x20.
Definition MS_DATA_TRANSMITTED_ACK_RECEIVED_28 : Z := 0x28.
Definition MS_DATA_TRANSMITTED_NO_ACK_RECEIVED_30 : Z := 0x30.
Definition MR_STARTBIT_TRANSMITED_AND_ACK_RECEIVED_40 : Z := 0x40.
Definition MR_STARTBIT_TRANSMITTED_AND_NO_ACK_RECEIVED_48 : Z := 0x48.
Definition MR_DATA_RECEIVED_ACK_RETURN_50 : Z := 0x50.
Definition MR_DATA_RECEIVED_NO_ACK_RETURN_58 : Z := 0x58.

Definition SR_START_TRANSMISSION_RECEIVED_60 : Z := 0x60.
Definition SR_ARBITRATION_LOST_ACK_RETURN_68 : Z := 0x68.
Definition SR_GENERAL_ADDRESS_RECEIVED_ACK_RETURN_70 : Z := 0x70.
Definition SR_ARBITRATION_LOST_ADDRESS_RECEIVED_ACK_RETURN_78 : Z := 0x78.
Definition SR_DATA_RECEIVED_ACK_RETURN_80 : Z := 0x80.
Definition SR_DATA_RECEIVED_NO_ACK_RETURN_88 : Z := 0x88.
Definition SR_GENERAL_DATA_RECEIVED_ACK_RETURN_90 : Z := 0x90.
Definition SR_GENERAL_DATA_RECEIVED_NO_ACK_RETURN_98 : Z := 0x98.
Definition SR_STOP_RECEIVED : Z := 0xA0.
Definition ST_START_TRANSMISSION_RECEIVED_A8 : Z := 0xA8.
Definition ST_ARBITRATION_LOST_ACK_RETURN_B0 : Z := 0xB0.
Definition ST_DATA_TRANSMIT_ACK_RECEIVED_B8 : Z := 0xB8.
Definition ST_DATA_TRANSMIT_NO_ACK_RECEIVED_C0 : Z := 0xC0.
Definition ST_LAST_DATA_TRANSMIT_ACK_RECEIVED_C8 : Z := 0xC8.

Definition COMMON_NO_INFO_F8 : Z := 0xF8.
Definition COMMON_BUS_EEOR_00 : Z := 0x00.

(** ** The TWI control register

    Bit numbers of [TWCR] as <avr/io.h> gives them for the ATmega 328P. *)

Definition TWINT : Z := 7.
Definition TWEA : Z := 6.
Definition TWSTA : Z := 5.
Definition TWSTO : Z := 4.
Definition TWEN : Z := 2.
Definition TWIE : Z := 0.

Definition _BV (bit : Z) : Z := Z.shiftl 1 bit.

Infix ".|" := Z.lor (at level 50, left associativity).

(** The values the macros of I2CDriver.cpp store into [TWCR]. *)

Definition ENABLE_I2C_value : Z := _BV TWEN .| _BV TWIE .| _BV TWEA.
Definition SEND_START_CONDITION_value : Z :=
  _BV TWINT .| _BV TWEA .| _BV TWEN .| _BV TWIE .| _BV TWSTA.
Definition SEND_STOP_CONDITION_value : Z :=
  _BV TWEN .| _BV TWIE .| _BV TWEA .| _BV TWINT .| _BV TWSTO.
Definition REQUEST_SEND_WITH_ACK_value : Z :=
  _BV TWEN .| _BV TWIE .| _BV TWINT .| _BV TWEA.
Definition REQUEST_SEND_WITHOUT_ACK_value : Z :=
  _BV TWEN .| _BV TWIE .| _BV TWINT.
Definition releaseBus_value : Z :=
  _BV TWEN .| _BV TWIE .| _BV TWEA .| _BV TWINT.

(** What a store into [TWCR] commands the bus controller to do. *)

Definition is_start (v : Z) : bool := Z.testbit v TWSTA.
Definition is_stop (v : Z) : bool := Z.testbit v TWSTO.
Definition has_ack (v : Z) : bool := Z.testbit v TWEA.
Definition clears_TWINT (v : Z) : bool := Z.testbit v TWINT.

(** [uint8_t] arithmetic wraps around. *)
Definition u8 (z : Z) : Z := z mod 256.

(** ** Recorded effects *)

Inductive effect : Set :=
| SetTWCR (v : Z)                 (* a store into the control register *)
| SetTWDR (v : Z)                 (* a store into the data register *)
| Store (a : nat) (v : Z)         (* a store through a [uint8_t*] *)
| CallReceive (f : option nat) (buf : list Z) (n : Z).
                                  (* a call slaveReceiveCallBack(buffer, n) *)

(** In [CallReceive f buf n], [f] is the function the pointer holds ([None]
    for the null pointer), [n] the second argument and [buf] the content of
    the array named by the first argument at the time of the call.  The
    record says which array the call names and what it holds then; the
    pointer is declared with a first parameter of type [uint8_t], so it does
    not say that the callee is handed these bytes. *)

Definition control_of (e : effect) : option Z :=
  match e with SetTWCR v => Some v | _ => None end.
Definition data_of (e : effect) : option Z :=
  match e with SetTWDR v => Some v | _ => None end.
Definition store_of (e : effect) : option (nat * Z) :=
  match e with Store a v => Some (a, v) | _ => None end.

(** The stores into [TWCR], [TWDR] and memory of a history, in order. *)
Definition control_writes (h : list effect) : list Z := omap control_of h.
Definition data_writes (h : list effect) : list Z := omap data_of h.
Definition stores (h : list effect) : list (nat * Z) := omap store_of h.

Definition stop_conditions (h : list effect) : nat :=
  length (List.filter is_stop (control_writes h)).

Definition starts_transaction (e : effect) : bool :=
  match e with SetTWCR v => is_start v | _ => false end.

(** The effects that follow the most recent start condition. *)
Definition since_start (h : list effect) : list effect :=
  fold_left (fun acc e => if starts_transaction e then [] else acc ++ [e]) h [].

(** Membership of a status code in a list of codes. *)
Definition one_of (l : list Z) (st : Z) : bool := existsb (Z.eqb st) l.

(** * The master variant ([I2C_MODE == MODE_MASTER]) *)

Module Master.

(** The TWI registers, the file-scope variables of I2CDriver.cpp, the data
    memory that [uint8_t*] arguments point into, and the history of effects. *)
Record state : Type := mkState {
  TWCR : Z;
  TWDR : Z;
  TWSR : Z;
  typeOfCommunication : tI2CTypeOfCommunication;
  driverState : tI2CDriverState;
  i2cBuffer : nat;
  i2cAddress : Z;
  dataPointer : Z;
  masterReceivedBuffer : nat;
  nbDataToSend : Z;
  lastRequestStatus : tI2CDriverError;
  ram : list Z;
  history : list effect
}.

Definition set_TWCR (v : Z) (s : state) : state :=
  mkState v (TWDR s) (TWSR s) (typeOfCommunication s) (driverState s)
    (i2cBuffer s) (i2cAddress s) (dataPointer s) (masterReceivedBuffer s)
    (nbDataToSend s) (lastRequestStatus s) (ram s) (history s).
Definition set_TWDR (v : Z) (s : state) : state :=
  mkState (TWCR s) v (TWSR s) (typeOfCommunication s) (driverState s)
    (i2cBuffer s) (i2cAddress s) (dataPointer s) (masterReceivedBuffer s)
    (nbDataToSend s) (lastRequestStatus s) (ram s) (history s).
Definition set_TWSR (v : Z) (s : state) : state :=
  mkState (TWCR s) (TWDR s) v (typeOfCommunication s) (driverState s)
    (i2cBuffer s) (i2cAddress s) (dataPointer s) (masterReceivedBuffer s)
    (nbDataToSend s) (lastRequestStatus s) (ram s) (history s).
Definition set_typeOfCommunication (v : tI2CTypeOfCommunication) (s : state) : state :=
  mkState (TWCR s) (TWDR s) (TWSR s) v (driverState s)
    (i2cBuffer s) (i2cAddress s) (dataPointer s) (masterReceivedBuffer s)
    (nbDataToSend s) (lastRequestStatus s) (ram s) (history s).
Definition set_driverState (v : tI2CDriverState) (s : state) : state :=
  mkState (TWCR s) (TWDR s) (TWSR s) (typeOfCommunication s) v
    (i2cBuffer s) (i2cAddress s) (dataPointer s) (masterReceivedBuffer s)
    (nbDataToSend s) (lastRequestStatus s) (ram s) (history s).
Definition set_i2cBuffer (v : nat) (s : state) : state :=
  mkState (TWCR s) (TWDR s) (TWSR s) (typeOfCommunication s) (driverState s)
    v (i2cAddress s) (dataPointer s) (masterReceivedBuffer s)
    (nbDataToSend s) (lastRequestStatus s) (ram s) (history s).
Definition set_i2cAddress (v : Z) (s : state) : state :=
  mkState (TWCR s) (TWDR s) (TWSR s) (typeOfCommunication s) (driverState s)
    (i2cBuffer s) v (dataPointer s) (masterReceivedBuffer s)
    (nbDataToSend s) (lastRequestStatus s) (ram s) (history s).
Definition set_dataPointer (v : Z) (s : state) : state :=
  mkState (TWCR s) (TWDR s) (TWSR s) (typeOfCommunication s) (driverState s)
    (i2cBuffer s) (i2cAddress s) v (masterReceivedBuffer s)
    (nbDataToSend s) (lastRequestStatus s) (ram s) (history s).
Definition set_masterReceivedBuffer (v : nat) (s : state) : state :=
  mkState (TWCR s) (TWDR s) (TWSR s) (typeOfCommunication s) (driverState s)
    (i2cBuffer s) (i2cAddress s) (dataPointer s) v
    (nbDataToSend s) (lastRequestStatus s) (ram s) (history s).
Definition set_nbDataToSend (v : Z) (s : state) : state :=
  mkState (TWCR s) (TWDR s) (TWSR s) (typeOfCommunication s) (driverState s)
    (i2cBuffer s) (i2cAddress s) (dataPointer s) (masterReceivedBuffer s)
    v (lastRequestStatus s) (ram s) (history s).
Definition set_lastRequestStatus (v : tI2CDriverError) (s : state) : state :=
  mkState (TWCR s) (TWDR s) (TWSR s) (typeOfCommunication s) (driverState s)
    (i2cBuffer s) (i2cAddress s) (dataPointer s) (masterReceivedBuffer s)
    (nbDataToSend s) v (ram s) (history s).
Definition set_ram (v : list Z) (s : state) : state :=
  mkState (TWCR s) (TWDR s) (TWSR s) (typeOfCommunication s) (driverState s)
    (i2cBuffer s) (i2cAddress s) (dataPointer s) (masterReceivedBuffer s)
    (nbDataToSend s) (lastRequestStatus s) v (history s).
Definition record (e : effect) (s : state) : state :=
  mkState (TWCR s) (TWDR s) (TWSR s) (typeOfCommunication s) (driverState s)
    (i2cBuffer s) (i2cAddress s) (dataPointer s) (masterReceivedBuffer s)
    (nbDataToSend s) (lastRequestStatus s) (ram s) (history s ++ [e]).

(** *** Register and memory accesses *)

(** [TWCR = v] *)
Definition write_TWCR (v : Z) (s : state) : state := record (SetTWCR v) (set_TWCR v s).
(** [TWDR = v] *)
Definition write_TWDR (v : Z) (s : state) : state := record (SetTWDR v) (set_TWDR v s).

(** [p[i]] read through a [uint8_t*].  The memory of the model is finite: a
    read outside it (undefined behaviour in the source) yields 0. *)
Definition load (p : nat) (i : Z) (s : state) : Z :=
  default 0 (ram s !! (p + Z.to_nat i)%nat).

(** [p[i] = v] through a [uint8_t*].  A store outside the modelled memory
    (undefined behaviour in the source) is recorded but changes no cell. *)
Definition store (p : nat) (i : Z) (v : Z) (s : state) : state :=
  record (Store (p + Z.to_nat i)%nat v)
         (set_ram (<[(p + Z.to_nat i)%nat := v]> (ram s)) s).

(** *** The macros of I2CDriver.cpp *)

Definition SEND_START_CONDITION : state -> state := write_TWCR SEND_START_CONDITION_value.
(** The macro reads [TWCR = TWCR = v], a chained assignment: the value is
    stored into the register, and stored again. *)
Definition SEND_STOP_CONDITION (s : state) : state :=
  write_TWCR SEND_STOP_CONDITION_value (write_TWCR SEND_STOP_CONDITION_value s).
Definition REQUEST_SEND_WITH_ACK : state -> state := write_TWCR REQUEST_SEND_WITH_ACK_value.
Definition REQUEST_SEND_WITHOUT_ACK : state -> state := write_TWCR REQUEST_SEND_WITHOUT_ACK_value.
Definition GET_COMMUNICATION_STATUS (s : state) : Z := Z.land (TWSR s) 0xF8.

(** *** twi_releaseBus *)
Definition twi_releaseBus (s : state) : state :=
  set_driverState I2C_READY (write_TWCR releaseBus_value s).

(** *** I2CDriver::sendTo

    Returns the function's return value together with the new state. *)
Definition sendTo (address : Z) (data : nat) (length : Z) (s : state) : Z * state :=
  (0,
   if is_ready (driverState s) then
     let s := set_typeOfCommunication MASTER_SEND s in
     let s := set_driverState I2C_MASTER_TRANSMIT s in
     let s := set_dataPointer 0 s in
     let s := set_nbDataToSend length s in
     let s := set_i2cAddress (u8 (Z.shiftl address 1)) s in
     let s := set_i2cBuffer data s in
     SEND_START_CONDITION s
   else s).

(** *** I2CDriver::readFrom *)
Definition readFrom (address : Z) (data : nat) (length : Z) (s : state) : Z * state :=
  (0,
   if is_ready (driverState s) then
     let s := set_typeOfCommunication MASTER_RECEIVED s in
     let s := set_driverState I2C_MASTER_TRANSMIT s in
     let s := set_dataPointer 0 s in
     let s := set_nbDataToSend length s in
     let s := set_masterReceivedBuffer data s in
     let s := set_i2cAddress (u8 (Z.shiftl address 1 + 1)) s in
     let s := set_i2cBuffer data s in
     SEND_START_CONDITION s
   else s).

(** *** ISR(TWI_vect)

    The [switch] over the status code; a code with no [case] falls through
    the [switch] and leaves everything as it is.  In
    [dataPointer < nbDataToSend-1] both operands are promoted to [int], so
    the subtraction does not wrap. *)
Definition ISR (s : state) : state :=
  let status := GET_COMMUNICATION_STATUS s in
  if (status =? MASTER_START_TRANSMISSION_DONE_08)
     || (status =? MASTER_REPEATED_START_TRANSMISSION_DONE_10) then
    REQUEST_SEND_WITH_ACK (write_TWDR (i2cAddress s) s)
  else if (status =? MS_STARTBIT_TRANSMITTED_AND_ACK_RECEIVED_18)
          || (status =? MS_DATA_TRANSMITTED_ACK_RECEIVED_28) then
    if dataPointer s <? nbDataToSend s then
      let b := load (i2cBuffer s) (dataPointer s) s in
      let s := set_dataPointer (u8 (dataPointer s + 1)) s in
      REQUEST_SEND_WITH_ACK (write_TWDR b s)
    else
      set_driverState I2C_READY (SEND_STOP_CONDITION s)
  else if status =? MS_STARTBIT_TRANSMITTED_AND_NO_ACK_RECEIVED_20 then
    let s := set_lastRequestStatus I2C_MISSING_ACK s in
    set_driverState I2C_READY (SEND_STOP_CONDITION s)
  else if status =? MS_DATA_TRANSMITTED_NO_ACK_RECEIVED_30 then
    let s := set_lastRequestStatus I2C_MISSING_ACK s in
    set_driverState I2C_READY (SEND_STOP_CONDITION s)
  else if status =? MR_STARTBIT_TRANSMITED_AND_ACK_RECEIVED_40 then
    if dataPointer s <? nbDataToSend s - 1 then REQUEST_SEND_WITH_ACK s
    else REQUEST_SEND_WITHOUT_ACK s
  else if status =? MR_DATA_RECEIVED_ACK_RETURN_50 then
    let s := store (masterReceivedBuffer s) (dataPointer s) (TWDR s) s in
    let s := set_dataPointer (u8 (dataPointer s + 1)) s in
    if dataPointer s <? nbDataToSend s - 1 then REQUEST_SEND_WITH_ACK s
    else REQUEST_SEND_WITHOUT_ACK s
  else if status =? MR_DATA_RECEIVED_NO_ACK_RETURN_58 then
    let s := store (masterReceivedBuffer s) (dataPointer s) (TWDR s) s in
    let s := set_dataPointer (u8 (dataPointer s + 1)) s in
    set_driverState I2C_READY (SEND_STOP_CONDITION s)
  else if status =? MR_STARTBIT_TRANSMITTED_AND_NO_ACK_RECEIVED_48 then
    set_driverState I2C_READY (SEND_STOP_CONDITION s)
  else if status =? MASTER_ARBITRATION_LOST_38 then
    let s := set_lastRequestStatus I2C_LOST_ARBITRATION s in
    twi_releaseBus s
  else if status =? COMMON_NO_INFO_F8 then
    set_driverState I2C_READY s
  else if status =? COMMON_BUS_EEOR_00 then
    let s := set_lastRequestStatus I2C_BUS_ERROR s in
    set_driverState I2C_READY (SEND_STOP_CONDITION s)
  else s.

(** *** The bus controller, seen from the driver

    Between two runs of the interrupt routine the TWI hardware performs the
    bus phase that the last store into [TWCR] released, then reports its
    outcome in [TWSR]; on the two data-received outcomes it has loaded the
    received byte into [TWDR].  An event is the pair of the value found in
    [TWSR] (status code and the prescaler bits below it) and the byte the
    peer delivered. *)

Definition event : Type := Z * Z.

Definition status_of (e : event) : Z := Z.land (fst e) 0xF8.

Definition twi_event (e : event) (s : state) : state :=
  let s := set_TWSR (fst e) s in
  if (status_of e =? MR_DATA_RECEIVED_ACK_RETURN_50)
     || (status_of e =? MR_DATA_RECEIVED_NO_ACK_RETURN_58)
  then set_TWDR (snd e) s else s.

Definition interrupt (e : event) (s : state) : state := ISR (twi_event e s).

Fixpoint run (evs : list event) (s : state) : state :=
  match evs with
  | [] => s
  | e :: evs => run evs (interrupt e s)
  end.

(** Protocol conformance: may the hardware report status [st] next, given
    what the driver last left in the registers?  This is the state graph of
    the master transmitter and master receiver modes: the previous status
    (still in [TWSR]) and the command in [TWCR] determine the outcomes of the
    phase now running.  Nothing is reported while [TWINT] has not been
    cleared, or once a stop condition has been commanded or the bus has been
    given up after a lost arbitration. *)
Definition twi_may_raise (s : state) (st : Z) : bool :=
  let cr := TWCR s in
  let prev := GET_COMMUNICATION_STATUS s in
  if negb (clears_TWINT cr) then false
  else if is_stop cr then false
  else if is_start cr then
    one_of [MASTER_START_TRANSMISSION_DONE_08;
            MASTER_REPEATED_START_TRANSMISSION_DONE_10;
            COMMON_BUS_EEOR_00] st
  else if one_of [MASTER_START_TRANSMISSION_DONE_08;
                  MASTER_REPEATED_START_TRANSMISSION_DONE_10] prev then
    if Z.testbit (TWDR s) 0 then
      one_of [MR_STARTBIT_TRANSMITED_AND_ACK_RECEIVED_40;
              MR_STARTBIT_TRANSMITTED_AND_NO_ACK_RECEIVED_48;
              MASTER_ARBITRATION_LOST_38; COMMON_BUS_EEOR_00] st
    else
      one_of [MS_STARTBIT_TRANSMITTED_AND_ACK_RECEIVED_18;
              MS_STARTBIT_TRANSMITTED_AND_NO_ACK_RECEIVED_20;
              MASTER_ARBITRATION_LOST_38; COMMON_BUS_EEOR_00] st
  else if one_of [MS_STARTBIT_TRANSMITTED_AND_ACK_RECEIVED_18;
                  MS_DATA_TRANSMITTED_ACK_RECEIVED_28] prev then
    one_of [MS_DATA_TRANSMITTED_ACK_RECEIVED_28;
            MS_DATA_TRANSMITTED_NO_ACK_RECEIVED_30;
            MASTER_ARBITRATION_LOST_38; COMMON_BUS_EEOR_00] st
  else if one_of [MR_STARTBIT_TRANSMITED_AND_ACK_RECEIVED_40;
                  MR_DATA_RECEIVED_ACK_RETURN_50] prev then
    if has_ack cr then
      one_of [MR_DATA_RECEIVED_ACK_RETURN_50; COMMON_BUS_EEOR_00] st
    else
      one_of [MR_DATA_RECEIVED_NO_ACK_RETURN_58;
              MASTER_ARBITRATION_LOST_38; COMMON_BUS_EEOR_00] st
  else false.

(** A sequence of events is conformant from [s] when each event is one the
    hardware may raise in the state the driver has reached by then. *)
Fixpoint conformant (s : state) (evs : list event) : bool :=
  match evs with
  | [] => true
  | e :: evs => twi_may_raise s (status_of e) && conformant (interrupt e s) evs
  end.

(** The events that report progress: start sent, address or data byte
    acknowledged (master transmitter), address acknowledged or data byte
    received (master receiver). *)
Definition mt_acknowledged (e : event) : bool :=
  one_of [MASTER_START_TRANSMISSION_DONE_08;
          MASTER_REPEATED_START_TRANSMISSION_DONE_10;
          MS_STARTBIT_TRANSMITTED_AND_ACK_RECEIVED_18;
          MS_DATA_TRANSMITTED_ACK_RECEIVED_28] (status_of e).

Definition mr_acknowledged (e : event) : bool :=
  one_of [MASTER_START_TRANSMISSION_DONE_08;
          MASTER_REPEATED_START_TRANSMISSION_DONE_10;
          MR_STARTBIT_TRANSMITED_AND_ACK_RECEIVED_40;
          MR_DATA_RECEIVED_ACK_RETURN_50;
          MR_DATA_RECEIVED_NO_ACK_RETURN_58] (status_of e).

(** The effects of the transaction in flight. *)
Definition transaction (s : state) : list effect := since_start (history s).

(** The number of data bytes of the transaction in flight handled so far:
    for a send, the bytes handed to [TWDR] after the address byte; for a
    receive, the bytes stored into the caller's buffer. *)
Definition bytes_processed (s : state) : Z :=
  match typeOfCommunication s with
  | MASTER_SEND => Z.of_nat (length (tail (data_writes (transaction s))))
  | _ => Z.of_nat (length (stores (transaction s)))
  end.

(** The states the driver can be in: a facade call on an idle driver starts
    a transaction, and every further state is the result of an interrupt the
    hardware may raise.  (A facade call on a busy driver returns the state it
    was given, see [sendTo_busy] and [readFrom_busy].)  [min_read] bounds the
    lengths passed to [readFrom] from below. *)
Inductive reachable (min_read : Z) : state -> Prop :=
| reach_sendTo s address data length :
    driverState s = I2C_READY -> 0 <= length < 256 ->
    reachable min_read (snd (sendTo address data length s))
| reach_readFrom s address data length :
    driverState s = I2C_READY -> min_read <= length < 256 ->
    reachable min_read (snd (readFrom address data length s))
| reach_interrupt s e :
    reachable min_read s -> twi_may_raise s (status_of e) = true ->
    reachable min_read (interrupt e s).

(** The cursor invariant of the transaction context, for [readFrom] lengths
    from [min_read] on: the cursor never exceeds the length, and equals it
    exactly when [nbDataToSend] bytes have been handled. *)
Definition cursor_invariant (min_read : Z) : Prop :=
  forall s, reachable min_read s ->
    dataPointer s <= nbDataToSend s /\
    (dataPointer s = nbDataToSend s <-> bytes_processed s = nbDataToSend s).

(** The facade functions report acceptance: non-zero when the call started a
    transaction, zero when it was dropped. *)
Definition reports_acceptance : Prop :=
  forall s address data length,
    (driverState s = I2C_READY ->
     fst (sendTo address data length s) <> 0 /\
     fst (readFrom address data length s) <> 0) /\
    (driverState s <> I2C_READY ->
     fst (sendTo address data length s) = 0 /\
     fst (readFrom address data length s) = 0).

(** *** The phases of a transaction

    What the registers and variables look like between two interrupts. *)

Definition direction_ok (s : state) : Prop :=
  match typeOfCommunication s with
  | MASTER_SEND => Z.testbit (i2cAddress s) 0 = false
  | MASTER_RECEIVED => Z.testbit (i2cAddress s) 0 = true /\ 1 <= nbDataToSend s
  | _ => False
  end.

Definition in_flight (s : state) : Prop :=
  driverState s = I2C_MASTER_TRANSMIT /\ stop_conditions (transaction s) = 0%nat.

Definition started (s : state) : Prop :=
  TWCR s = SEND_START_CONDITION_value /\ transaction s = [].

Definition addressed (s : state) : Prop :=
  TWCR s = REQUEST_SEND_WITH_ACK_value /\
  one_of [MASTER_START_TRANSMISSION_DONE_08;
          MASTER_REPEATED_START_TRANSMISSION_DONE_10]
         (GET_COMMUNICATION_STATUS s) = true /\
  TWDR s = i2cAddress s /\
  transaction s = [SetTWDR (i2cAddress s); SetTWCR REQUEST_SEND_WITH_ACK_value].

Definition sending (s : state) : Prop :=
  TWCR s = REQUEST_SEND_WITH_ACK_value /\
  one_of [MS_STARTBIT_TRANSMITTED_AND_ACK_RECEIVED_18;
          MS_DATA_TRANSMITTED_ACK_RECEIVED_28]
         (GET_COMMUNICATION_STATUS s) = true /\
  typeOfCommunication s = MASTER_SEND /\
  data_writes (transaction s) <> [].

Definition receiving (s : state) : Prop :=
  one_of [MR_STARTBIT_TRANSMITED_AND_ACK_RECEIVED_40;
          MR_DATA_RECEIVED_ACK_RETURN_50]
         (GET_COMMUNICATION_STATUS s) = true /\
  typeOfCommunication s = MASTER_RECEIVED /\
  ((TWCR s = REQUEST_SEND_WITH_ACK_value /\ dataPointer s + 1 < nbDataToSend s) \/
   (TWCR s = REQUEST_SEND_WITHOUT_ACK_value /\ dataPointer s + 1 = nbDataToSend s)).

Definition over (s : state) : Prop :=
  driverState s = I2C_READY /\
  (TWCR s = SEND_STOP_CONDITION_value \/
   (TWCR s = releaseBus_value /\
    GET_COMMUNICATION_STATUS s = MASTER_ARBITRATION_LOST_38)).

(** The hardware raises nothing further. *)
Definition silent (s : state) : Prop := forall st, twi_may_raise s st = false.

(** The effects of handing the bytes [bytes] to the bus one after the other. *)
Definition sent (bytes : list Z) : list effect :=
  flat_map (fun b => [SetTWDR b; SetTWCR REQUEST_SEND_WITH_ACK_value]) bytes.

(** [buffer[0] .. buffer[n-1]] for the buffer at [p]. *)
Definition buffer_bytes (p : nat) (n : Z) (s : state) : list Z :=
  take (Z.to_nat n) (drop p (ram s)).

(** The acknowledge requests still to come once [n] further bytes are
    expected after the one on its way: all but the last with acknowledge. *)
Definition pending_requests (n : nat) : list Z :=
  match n with
  | O => []
  | S m => replicate m REQUEST_SEND_WITH_ACK_value ++ [REQUEST_SEND_WITHOUT_ACK_value]
  end.

(** The requests of a receive of [l] bytes, as the specification words them:
    with acknowledge for every byte except the last, without acknowledge once,
    for the final byte. *)
Definition receive_requests (l : Z) : list Z :=
  replicate (Z.to_nat (l - 1)) REQUEST_SEND_WITH_ACK_value
  ++ [REQUEST_SEND_WITHOUT_ACK_value].

(** The events an acknowledging peer produces for a send of [l] bytes:
    start sent, address acknowledged, each data byte acknowledged. *)
Definition send_events (l : Z) : list event :=
  (MASTER_START_TRANSMISSION_DONE_08, 0)
    :: (MS_STARTBIT_TRANSMITTED_AND_ACK_RECEIVED_18, 0)
    :: replicate (Z.to_nat l) (MS_DATA_TRANSMITTED_ACK_RECEIVED_28, 0).

(** The events of a peer delivering [bytes] to a read: the last byte is the
    one the master does not acknowledge. *)
Fixpoint data_events (bytes : list Z) : list event :=
  match bytes with
  | [] => []
  | [b] => [(MR_DATA_RECEIVED_NO_ACK_RETURN_58, b)]
  | b :: bytes => (MR_DATA_RECEIVED_ACK_RETURN_50, b) :: data_events bytes
  end.

Definition receive_events (bytes : list Z) : list event :=
  (MASTER_START_TRANSMISSION_DONE_08, 0)
    :: (MR_STARTBIT_TRANSMITED_AND_ACK_RECEIVED_40, 0)
    :: data_events bytes.

(** One store commanded a stop condition in the step from [s] to [s'], it is
    the only such store of the transaction, and the driver is idle. *)
Definition stopped_once (s s' : state) : Prop :=
  history s' = history s ++ [SetTWCR SEND_STOP_CONDITION_value] /\
  stop_conditions (transaction s') = 1%nat /\
  driverState s' = I2C_READY.

(** The step from [s] to [s'] stored the stop command twice, as one
    [SEND_STOP_CONDITION()] does, these are the only stores of the
    transaction that command a stop condition, and the driver is idle. *)
Definition stopped_twice (s s' : state) : Prop :=
  history s' =
    history s
    ++ [SetTWCR SEND_STOP_CONDITION_value; SetTWCR SEND_STOP_CONDITION_value] /\
  stop_conditions (transaction s') = 2%nat /\
  driverState s' = I2C_READY.

(** The state after static initialisation and [I2CDriver::initialisation]:
    every file-scope variable is zero and the controller is enabled; [mem] is
    the content of the data memory. *)
Definition boot (mem : list Z) : state :=
  mkState ENABLE_I2C_value 0 COMMON_NO_INFO_F8 MASTER_SEND I2C_READY
    0%nat 0 0 0%nat 0 I2C_OK mem [].

(** A send of three bytes whose address nobody acknowledges. *)
Definition failed_send : state :=
  run [(MASTER_START_TRANSMISSION_DONE_08, 0);
       (MS_STARTBIT_TRANSMITTED_AND_NO_ACK_RECEIVED_20, 0)]
      (snd (sendTo 0x50 0 3 (boot [1; 2; 3]))).

(** A read of zero bytes whose address is acknowledged: the driver refuses
    the acknowledge of the first byte, which the peer delivers all the same. *)
Definition empty_read : state :=
  run [(MASTER_START_TRANSMISSION_DONE_08, 0);
       (MR_STARTBIT_TRANSMITED_AND_ACK_RECEIVED_40, 0);
       (MR_DATA_RECEIVED_NO_ACK_RETURN_58, 0xBB)]
      (snd (readFrom 0x50 0 0 (boot [0]))).

(** A progress event of either direction. *)
Definition acknowledged (e : event) : bool :=
  mt_acknowledged e || mr_acknowledged e.

Definition consistent (s : state) : Prop :=
  (0 <= dataPointer s <= nbDataToSend s /\ nbDataToSend s < 256) /\
  dataPointer s = bytes_processed s /\
  direction_ok s /\
  ((in_flight s /\ (started s \/ addressed s \/ sending s \/ receiving s))
   \/ over s).


(** *** I2CDriver::initialisation and I2CDriver::disable

    The two functions also touch [PORTC] and [TWBR]; a [chip] is the driver
    state together with these two registers.  [F_CPU] and [I2C_SPEED] are
    constants of the build. *)

Definition PC4 : Z := 4.
Definition PC5 : Z := 5.

Record chip : Type := mkChip {
  core : state;
  PORTC : Z;
  TWBR : Z
}.

(** [r &= ~mask] on an 8-bit register. *)
Definition clear_bits (mask r : Z) : Z := u8 (Z.land r (Z.lnot mask)).

(** [PORTC &= ~(_BV(PC5) | _BV(PC4))]: the source gives this one expansion
    to both macros. *)
Definition SET_PULLUP_SDA_SCL (portc : Z) : Z := clear_bits (_BV PC5 .| _BV PC4) portc.
Definition REMOVE_PULLUP_SDA_SCL (portc : Z) : Z := clear_bits (_BV PC5 .| _BV PC4) portc.

(** [TWSR &= 0xFC] *)
Definition SET_I2C_PRESCALER_1 (s : state) : state :=
  set_TWSR (u8 (Z.land (TWSR s) 0xFC)) s.

(** [((F_CPU / I2C_SPEED) - 16) / 2], with the division of C. *)
Definition FREQUENCY_REGISTER_VALUE (F_CPU I2C_SPEED : Z) : Z :=
  Z.quot (Z.quot F_CPU I2C_SPEED - 16) 2.

Definition ENABLE_I2C : state -> state := write_TWCR ENABLE_I2C_value.

Definition initialisation (F_CPU I2C_SPEED : Z) (c : chip) : chip :=
  let s := set_driverState I2C_READY (core c) in
  let portc := SET_PULLUP_SDA_SCL (PORTC c) in
  let s := SET_I2C_PRESCALER_1 s in
  let twbr := u8 (FREQUENCY_REGISTER_VALUE F_CPU I2C_SPEED) in
  let s := ENABLE_I2C s in
  mkChip s portc twbr.

(** [TWCR &= ~(_BV(TWEN) | _BV(TWIE) | _BV(TWEA))], then the pull-up macro. *)
Definition disable (c : chip) : chip :=
  let s := write_TWCR (clear_bits (_BV TWEN .| _BV TWIE .| _BV TWEA) (TWCR (core c)))
                      (core c) in
  mkChip s (REMOVE_PULLUP_SDA_SCL (PORTC c)) (TWBR c).

(** The status codes [ISR] has a [case] for. *)
Definition handled_status : list Z :=
  [MASTER_START_TRANSMISSION_DONE_08; MASTER_REPEATED_START_TRANSMISSION_DONE_10;
   MS_STARTBIT_TRANSMITTED_AND_ACK_RECEIVED_18; MS_DATA_TRANSMITTED_ACK_RECEIVED_28;
   MS_STARTBIT_TRANSMITTED_AND_NO_ACK_RECEIVED_20;
   MS_DATA_TRANSMITTED_NO_ACK_RECEIVED_30;
   MR_STARTBIT_TRANSMITED_AND_ACK_RECEIVED_40; MR_DATA_RECEIVED_ACK_RETURN_50;
   MR_DATA_RECEIVED_NO_ACK_RETURN_58;
   MR_STARTBIT_TRANSMITTED_AND_NO_ACK_RECEIVED_48;
   MASTER_ARBITRATION_LOST_38; COMMON_NO_INFO_F8; COMMON_BUS_EEOR_00].

(** The events of a send in which the peer acknowledges the address and
    [acked] data bytes, and refuses the next one. *)
Definition refused_send_events (acked : nat) : list event :=
  (MASTER_START_TRANSMISSION_DONE_08, 0)
    :: (MS_STARTBIT_TRANSMITTED_AND_ACK_RECEIVED_18, 0)
    :: replicate acked (MS_DATA_TRANSMITTED_ACK_RECEIVED_28, 0)
    ++ [(MS_DATA_TRANSMITTED_NO_ACK_RECEIVED_30, 0)].

(** The events of a read of zero bytes: the peer acknowledges its address and
    delivers [b]. *)
Definition empty_read_events (b : Z) : list event :=
  [(MASTER_START_TRANSMISSION_DONE_08, 0);
   (MR_STARTBIT_TRANSMITED_AND_ACK_RECEIVED_40, 0);
   (MR_DATA_RECEIVED_NO_ACK_RETURN_58, b)].

End Master.

(** * The slave variant ([I2C_MODE == MODE_SLAVE]) *)

Module Slave.

(** [slaveBuffer] is the array [uint8_t slaveBuffer[I2C_BUFFER_SIZE]]: a list
    whose length is the configured size.  A store past its end is undefined
    behaviour in the source; the model leaves the array as it is and keeps the
    index and the byte in [overrun], so that a state with a longer [overrun]
    marks a run in which the source has left its defined behaviour (in the
    compiled program such a store lands on whatever lies behind the array).
    The transmit provider is a function pointer returning a buffer: the model
    keeps the bytes it returns.  The receive handler is a function pointer:
    the model keeps an identifier for the registered function ([None] for the
    null pointer of static initialisation) and records each call; a handler
    is taken to return and to leave the variables of the driver, which are
    [static] in I2CDriver.cpp, as they are.  [defined_step] below says which
    steps stay within defined behaviour. *)
Record state : Type := mkState {
  TWCR : Z;
  TWDR : Z;
  TWSR : Z;
  typeOfCommunication : tI2CTypeOfCommunication;
  driverState : tI2CDriverState;
  slaveDataPointer : Z;
  slaveBuffer : list Z;
  overrun : list (nat * Z);
  slaveTransmitBuffer : list Z;
  nbByteToTransmit : Z;
  slaveTransmitCallBack : list Z;
  slaveReceiveCallBack : option nat;
  lastRequestStatus : tI2CDriverError;
  history : list effect
}.

Definition set_TWCR (v : Z) (s : state) : state :=
  mkState v (TWDR s) (TWSR s) (typeOfCommunication s) (driverState s)
    (slaveDataPointer s) (slaveBuffer s) (overrun s) (slaveTransmitBuffer s)
    (nbByteToTransmit s) (slaveTransmitCallBack s) (slaveReceiveCallBack s)
    (lastRequestStatus s) (history s).
Definition set_TWDR (v : Z) (s : state) : state :=
  mkState (TWCR s) v (TWSR s) (typeOfCommunication s) (driverState s)
    (slaveDataPointer s) (slaveBuffer s) (overrun s) (slaveTransmitBuffer s)
    (nbByteToTransmit s) (slaveTransmitCallBack s) (slaveReceiveCallBack s)
    (lastRequestStatus s) (history s).
Definition set_TWSR (v : Z) (s : state) : state :=
  mkState (TWCR s) (TWDR s) v (typeOfCommunication s) (driverState s)
    (slaveDataPointer s) (slaveBuffer s) (overrun s) (slaveTransmitBuffer s)
    (nbByteToTransmit s) (slaveTransmitCallBack s) (slaveReceiveCallBack s)
    (lastRequestStatus s) (history s).
Definition set_typeOfCommunication (v : tI2CTypeOfCommunication) (s : state) : state :=
  mkState (TWCR s) (TWDR s) (TWSR s) v (driverState s)
    (slaveDataPointer s) (slaveBuffer s) (overrun s) (slaveTransmitBuffer s)
    (nbByteToTransmit s) (slaveTransmitCallBack s) (slaveReceiveCallBack s)
    (lastRequestStatus s) (history s).
Definition set_driverState (v : tI2CDriverState) (s : state) : state :=
  mkState (TWCR s) (TWDR s) (TWSR s) (typeOfCommunication s) v
    (slaveDataPointer s) (slaveBuffer s) (overrun s) (slaveTransmitBuffer s)
    (nbByteToTransmit s) (slaveTransmitCallBack s) (slaveReceiveCallBack s)
    (lastRequestStatus s) (history s).
Definition set_slaveDataPointer (v : Z) (s : state) : state :=
  mkState (TWCR s) (TWDR s) (TWSR s) (typeOfCommunication s) (driverState s)
    v (slaveBuffer s) (overrun s) (slaveTransmitBuffer s)
    (nbByteToTransmit s) (slaveTransmitCallBack s) (slaveReceiveCallBack s)
    (lastRequestStatus s) (history s).
Definition set_slaveBuffer (v : list Z) (o : list (nat * Z)) (s : state) : state :=
  mkState (TWCR s) (TWDR s) (TWSR s) (typeOfCommunication s) (driverState s)
    (slaveDataPointer s) v o (slaveTransmitBuffer s)
    (nbByteToTransmit s) (slaveTransmitCallBack s) (slaveReceiveCallBack s)
    (lastRequestStatus s) (history s).
Definition set_slaveTransmitBuffer (v : list Z) (s : state) : state :=
  mkState (TWCR s) (TWDR s) (TWSR s) (typeOfCommunication s) (driverState s)
    (slaveDataPointer s) (slaveBuffer s) (overrun s) v
    (nbByteToTransmit s) (slaveTransmitCallBack s) (slaveReceiveCallBack s)
    (lastRequestStatus s) (history s).
Definition set_nbByteToTransmit (v : Z) (s : state) : state :=
  mkState (TWCR s) (TWDR s) (TWSR s) (typeOfCommunication s) (driverState s)
    (slaveDataPointer s) (slaveBuffer s) (overrun s) (slaveTransmitBuffer s)
    v (slaveTransmitCallBack s) (slaveReceiveCallBack s)
    (lastRequestStatus s) (history s).
Definition set_slaveTransmitCallBack (v : list Z) (s : state) : state :=
  mkState (TWCR s) (TWDR s) (TWSR s) (typeOfCommunication s) (driverState s)
    (slaveDataPointer s) (slaveBuffer s) (overrun s) (slaveTransmitBuffer s)
    (nbByteToTransmit s) v (slaveReceiveCallBack s)
    (lastRequestStatus s) (history s).
Definition set_slaveReceiveCallBack (v : option nat) (s : state) : state :=
  mkState (TWCR s) (TWDR s) (TWSR s) (typeOfCommunication s) (driverState s)
    (slaveDataPointer s) (slaveBuffer s) (overrun s) (slaveTransmitBuffer s)
    (nbByteToTransmit s) (slaveTransmitCallBack s) v
    (lastRequestStatus s) (history s).
Definition set_lastRequestStatus (v : tI2CDriverError) (s : state) : state :=
  mkState (TWCR s) (TWDR s) (TWSR s) (typeOfCommunication s) (driverState s)
    (slaveDataPointer s) (slaveBuffer s) (overrun s) (slaveTransmitBuffer s)
    (nbByteToTransmit s) (slaveTransmitCallBack s) (slaveReceiveCallBack s)
    v (history s).
Definition record (e : effect) (s : state) : state :=
  mkState (TWCR s) (TWDR s) (TWSR s) (typeOfCommunication s) (driverState s)
    (slaveDataPointer s) (slaveBuffer s) (overrun s) (slaveTransmitBuffer s)
    (nbByteToTransmit s) (slaveTransmitCallBack s) (slaveReceiveCallBack s)
    (lastRequestStatus s) (history s ++ [e]).

Definition write_TWCR (v : Z) (s : state) : state := record (SetTWCR v) (set_TWCR v s).
Definition write_TWDR (v : Z) (s : state) : state := record (SetTWDR v) (set_TWDR v s).

(** [slaveBuffer[i] = v].  Outside the array the store is only logged (see
    [overrun] above): what the model says of the state after such a store is
    a placeholder for behaviour the source does not define. *)
Definition store_slaveBuffer (i : Z) (v : Z) (s : state) : state :=
  let n := Z.to_nat i in
  if (n <? length (slaveBuffer s))%nat
  then set_slaveBuffer (<[n := v]> (slaveBuffer s)) (overrun s) s
  else set_slaveBuffer (slaveBuffer s) (overrun s ++ [(n, v)]) s.

Definition ENABLE_I2C : state -> state := write_TWCR ENABLE_I2C_value.
(** [TWCR = TWCR = v]: two stores of the same value. *)
Definition SEND_STOP_CONDITION (s : state) : state :=
  write_TWCR SEND_STOP_CONDITION_value (write_TWCR SEND_STOP_CONDITION_value s).
Definition REQUEST_SEND_WITH_ACK : state -> state := write_TWCR REQUEST_SEND_WITH_ACK_value.
Definition REQUEST_SEND_WITHOUT_ACK : state -> state := write_TWCR REQUEST_SEND_WITHOUT_ACK_value.
Definition GET_COMMUNICATION_STATUS (s : state) : Z := Z.land (TWSR s) 0xF8.

Definition twi_releaseBus (s : state) : state :=
  set_driverState I2C_READY (write_TWCR releaseBus_value s).

(** *** I2CDriver::setSlaveReceivedCallback, I2CDriver::setSlaveTransmitCallback *)
Definition setSlaveReceivedCallback (callBackFunction : nat) (s : state) : state :=
  set_slaveReceiveCallBack (Some callBackFunction) s.

Definition setSlaveTransmitCallback (callBackFunction : list Z) (size : Z) (s : state) : state :=
  set_nbByteToTransmit size (set_slaveTransmitCallBack callBackFunction s).

(** [TWDR = slaveTransmitBuffer[slaveDataPointer++]], then the choice of the
    acknowledge bit for the byte just loaded. *)
Definition transmit_next (s : state) : state :=
  let b := default 0 (slaveTransmitBuffer s !! Z.to_nat (slaveDataPointer s)) in
  let s := set_slaveDataPointer (u8 (slaveDataPointer s + 1)) s in
  let s := write_TWDR b s in
  if slaveDataPointer s <? nbByteToTransmit s then REQUEST_SEND_WITH_ACK s
  else REQUEST_SEND_WITHOUT_ACK s.

(** *** ISR(TWI_vect)

    The [SR_STOP_RECEIVED] case calls through [slaveReceiveCallBack] without
    a test: with no handler registered the model records a call of [None],
    and what it says of the state afterwards is a placeholder (see
    [defined_step]). *)
Definition ISR (s : state) : state :=
  let status := GET_COMMUNICATION_STATUS s in
  if (status =? SR_START_TRANSMISSION_RECEIVED_60)
     || (status =? SR_ARBITRATION_LOST_ACK_RETURN_68)
     || (status =? SR_GENERAL_ADDRESS_RECEIVED_ACK_RETURN_70)
     || (status =? SR_ARBITRATION_LOST_ADDRESS_RECEIVED_ACK_RETURN_78) then
    let s := set_typeOfCommunication SLAVE_RECEIVED s in
    let s := set_driverState I2C_SLAVE_RECEIVE s in
    let s := set_slaveDataPointer 0 s in
    REQUEST_SEND_WITH_ACK s
  else if (status =? SR_DATA_RECEIVED_ACK_RETURN_80)
          || (status =? SR_GENERAL_DATA_RECEIVED_ACK_RETURN_90) then
    let s := store_slaveBuffer (slaveDataPointer s) (TWDR s) s in
    let s := set_slaveDataPointer (u8 (slaveDataPointer s + 1)) s in
    REQUEST_SEND_WITH_ACK s
  else if (status =? SR_DATA_RECEIVED_NO_ACK_RETURN_88)
          || (status =? SR_GENERAL_DATA_RECEIVED_NO_ACK_RETURN_98) then
    let s := store_slaveBuffer (slaveDataPointer s) (TWDR s) s in
    let s := set_slaveDataPointer (u8 (slaveDataPointer s + 1)) s in
    REQUEST_SEND_WITHOUT_ACK s
  else if status =? SR_STOP_RECEIVED then
    let s := record (CallReceive (slaveReceiveCallBack s) (slaveBuffer s)
                                 (slaveDataPointer s)) s in
    let s := ENABLE_I2C s in
    let s := twi_releaseBus s in
    set_driverState I2C_READY s
  else if (status =? ST_START_TRANSMISSION_RECEIVED_A8)
          || (status =? ST_ARBITRATION_LOST_ACK_RETURN_B0) then
    let s := set_typeOfCommunication SLAVE_SEND s in
    let s := set_driverState I2C_SLAVE_TRANSMIT s in
    let s := set_slaveTransmitBuffer (slaveTransmitCallBack s) s in
    let s := set_slaveDataPointer 0 s in
    transmit_next s
  else if status =? ST_DATA_TRANSMIT_ACK_RECEIVED_B8 then
    transmit_next s
  else if (status =? ST_DATA_TRANSMIT_NO_ACK_RECEIVED_C0)
          || (status =? ST_LAST_DATA_TRANSMIT_ACK_RECEIVED_C8) then
    set_driverState I2C_READY (REQUEST_SEND_WITH_ACK s)
  else if status =? COMMON_NO_INFO_F8 then
    set_driverState I2C_READY s
  else if status =? COMMON_BUS_EEOR_00 then
    let s := set_lastRequestStatus I2C_BUS_ERROR s in
    set_driverState I2C_READY (SEND_STOP_CONDITION s)
  else s.

(** An event: the value found in [TWSR] and, for the data-received status
    codes, the byte the hardware has loaded into [TWDR]. *)
Definition event : Type := Z * Z.

Definition status_of (e : event) : Z := Z.land (fst e) 0xF8.

Definition twi_event (e : event) (s : state) : state :=
  let s := set_TWSR (fst e) s in
  if one_of [SR_DATA_RECEIVED_ACK_RETURN_80; SR_DATA_RECEIVED_NO_ACK_RETURN_88;
             SR_GENERAL_DATA_RECEIVED_ACK_RETURN_90;
             SR_GENERAL_DATA_RECEIVED_NO_ACK_RETURN_98] (status_of e)
  then set_TWDR (snd e) s else s.

Definition interrupt (e : event) (s : state) : state := ISR (twi_event e s).

Fixpoint run (evs : list event) (s : state) : state :=
  match evs with
  | [] => s
  | e :: evs => run evs (interrupt e s)
  end.

(** *** Where the source is defined

    Four steps of the interrupt routine are undefined behaviour in the source
    for some states: the store [slaveBuffer[slaveDataPointer++] = TWDR] when
    the cursor is outside the array; the call through [slaveReceiveCallBack]
    when no handler is registered; the call through [slaveTransmitCallBack]
    when no provider is registered (a provider is modelled by the bytes of
    its buffer, so none is an empty buffer); and the load
    [slaveTransmitBuffer[slaveDataPointer++]] outside the provider's buffer.
    [defined_step e s] holds when the interrupt for [e] in state [s] is none
    of them, [defined evs s] when this is so for every event of [evs]. *)
Definition defined_step (e : event) (s : state) : bool :=
  let status := status_of e in
  if one_of [SR_DATA_RECEIVED_ACK_RETURN_80; SR_DATA_RECEIVED_NO_ACK_RETURN_88;
             SR_GENERAL_DATA_RECEIVED_ACK_RETURN_90;
             SR_GENERAL_DATA_RECEIVED_NO_ACK_RETURN_98] status
  then (Z.to_nat (slaveDataPointer s) <? length (slaveBuffer s))%nat
  else if status =? SR_STOP_RECEIVED
  then match slaveReceiveCallBack s with Some _ => true | None => false end
  else if one_of [ST_START_TRANSMISSION_RECEIVED_A8;
                  ST_ARBITRATION_LOST_ACK_RETURN_B0] status
  then (0 <? length (slaveTransmitCallBack s))%nat
  else if status =? ST_DATA_TRANSMIT_ACK_RECEIVED_B8
  then (Z.to_nat (slaveDataPointer s) <? length (slaveTransmitBuffer s))%nat
  else true.

Fixpoint defined (evs : list event) (s : state) : bool :=
  match evs with
  | [] => true
  | e :: evs => defined_step e s && defined evs (interrupt e s)
  end.

(** The state after static initialisation and [I2CDriver::initialisation]:
    every file-scope variable is zero, the array has its configured size, and
    the controller is enabled. *)
Definition boot (I2C_BUFFER_SIZE : nat) : state :=
  mkState ENABLE_I2C_value 0 COMMON_NO_INFO_F8 MASTER_SEND I2C_READY
    0 (replicate I2C_BUFFER_SIZE 0) [] [] 0 [] None I2C_OK [].

(** A write transaction addressed to this device: the address phase, one
    data-received event per byte, and the stop condition. *)
Definition data_received (bytes : list Z) : list event :=
  map (fun b => (SR_DATA_RECEIVED_ACK_RETURN_80, b)) bytes.

Definition write_transaction (bytes : list Z) : list event :=
  (SR_START_TRANSMISSION_RECEIVED_60, 0)
    :: data_received bytes ++ [(SR_STOP_RECEIVED, 0)].


(** *** I2CDriver::initialisation

    In the slave build the function sets the driver idle, enables the
    controller and loads the own-address register [TWAR], which the [chip]
    adds to the driver state.  [I2C_ADDRESS] is a constant of the build; the
    header accepts it from 0 to 127. *)

Record chip : Type := mkChip {
  core : state;
  TWAR : Z
}.

Definition initialisation (I2C_ADDRESS : Z) (c : chip) : chip :=
  let s := set_driverState I2C_READY (core c) in
  let s := ENABLE_I2C s in
  mkChip s (u8 (Z.shiftl I2C_ADDRESS 1)).

(** The effects of [transmit_next] for the bytes [bytes], the first of which
    is byte number [k], when [n] bytes are to be transmitted. *)
Fixpoint transmit_effects (n : Z) (k : nat) (bytes : list Z) : list effect :=
  match bytes with
  | [] => []
  | b :: bytes =>
      SetTWDR b
        :: SetTWCR (if Z.of_nat (S k) <? n then REQUEST_SEND_WITH_ACK_value
                    else REQUEST_SEND_WITHOUT_ACK_value)
        :: transmit_effects n (S k) bytes
  end.

(** A read transaction addressed to this device in which the master takes
    [n] bytes: it acknowledges all but the last. *)
Definition read_transaction (n : nat) : list event :=
  (ST_START_TRANSMISSION_RECEIVED_A8, 0)
    :: replicate (n - 1) (ST_DATA_TRANSMIT_ACK_RECEIVED_B8, 0)
    ++ [(ST_DATA_TRANSMIT_NO_ACK_RECEIVED_C0, 0)].

(** A write transaction cut short by a bus error. *)
Definition broken_write_transaction (bytes : list Z) : list event :=
  (SR_START_TRANSMISSION_RECEIVED_60, 0)
    :: data_received bytes ++ [(COMMON_BUS_EEOR_00, 0)].

Definition calls (h : list effect) : list effect :=
  List.filter (fun e => match e with CallReceive _ _ _ => true | _ => false end) h.

End Slave.

(** * Properties *)

Lemma u8_small x : 0 <= x < 256 -> u8 x = x.
Proof. intros H. unfold u8. apply Z.mod_small. exact H. Qed.

(** ** The master variant *)

Module MasterProofs.
Import Master.

#[local] Arguments is_start : simpl never.
#[local] Arguments is_stop : simpl never.
#[local] Arguments has_ack : simpl never.
#[local] Arguments clears_TWINT : simpl never.
#[local] Arguments u8 : simpl never.

(** ** The control-register values *)

Lemma control_values :
  SEND_START_CONDITION_value = 0xE5 /\ SEND_STOP_CONDITION_value = 0xD5 /\
  REQUEST_SEND_WITH_ACK_value = 0xC5 /\ REQUEST_SEND_WITHOUT_ACK_value = 0x85 /\
  releaseBus_value = 0xC5 /\ ENABLE_I2C_value = 0x45.
Proof. repeat split; reflexivity. Qed.

(** ** Histories *)

Lemma since_start_snoc h e :
  since_start (h ++ [e]) =
  if starts_transaction e then [] else since_start h ++ [e].
Proof. unfold since_start. rewrite fold_left_app. reflexivity. Qed.

Lemma control_writes_snoc h e :
  control_writes (h ++ [e]) = control_writes h ++ from_option (fun v => [v]) [] (control_of e).
Proof. unfold control_writes. rewrite omap_app. cbn. destruct (control_of e); reflexivity. Qed.

Lemma data_writes_snoc h e :
  data_writes (h ++ [e]) = data_writes h ++ from_option (fun v => [v]) [] (data_of e).
Proof. unfold data_writes. rewrite omap_app. cbn. destruct (data_of e); reflexivity. Qed.

Lemma stores_snoc h e :
  stores (h ++ [e]) = stores h ++ from_option (fun v => [v]) [] (store_of e).
Proof. unfold stores. rewrite omap_app. cbn. destruct (store_of e); reflexivity. Qed.

Lemma stop_conditions_snoc h e :
  stop_conditions (h ++ [e]) =
  (stop_conditions h +
   match e with SetTWCR v => if is_stop v then 1 else 0 | _ => 0 end)%nat.
Proof.
  unfold stop_conditions. rewrite control_writes_snoc, List.filter_app, length_app.
  f_equal. destruct e as [v| | |]; cbn; try reflexivity.
  destruct (is_stop v); reflexivity.
Qed.


Lemma shifted_address_even a : Z.testbit (u8 (Z.shiftl a 1)) 0 = false.
Proof.
  unfold u8. rewrite Z.shiftl_mul_pow2 by lia.
  replace ((a * 2 ^ 1) mod 256) with (2 * (a mod 128)).
  - apply Z.testbit_even_0.
  - change (2 ^ 1) with 2. pose proof (Z.mod_pos_bound a 128 ltac:(lia)).
    apply Z.mod_unique_pos with (q := a / 128); [lia|].
    pose proof (Z.div_mod a 128 ltac:(lia)). lia.
Qed.

Lemma shifted_address_odd a : Z.testbit (u8 (Z.shiftl a 1 + 1)) 0 = true.
Proof.
  unfold u8. rewrite Z.shiftl_mul_pow2 by lia.
  replace ((a * 2 ^ 1 + 1) mod 256) with (2 * (a mod 128) + 1).
  - apply Z.testbit_odd_0.
  - change (2 ^ 1) with 2. pose proof (Z.mod_pos_bound a 128 ltac:(lia)).
    apply Z.mod_unique_pos with (q := a / 128); [lia|].
    pose proof (Z.div_mod a 128 ltac:(lia)). lia.
Qed.


Lemma data_writes_cons e h :
  data_writes (e :: h) = from_option (fun v => [v]) [] (data_of e) ++ data_writes h.
Proof. unfold data_writes. destruct e; reflexivity. Qed.

Lemma stores_cons e h :
  stores (e :: h) = from_option (fun v => [v]) [] (store_of e) ++ stores h.
Proof. unfold stores. destruct e; reflexivity. Qed.

Lemma control_writes_cons e h :
  control_writes (e :: h) = from_option (fun v => [v]) [] (control_of e) ++ control_writes h.
Proof. unfold control_writes. destruct e; reflexivity. Qed.

Lemma stop_conditions_cons e h :
  stop_conditions (e :: h) =
  (match e with SetTWCR v => if is_stop v then 1 else 0 | _ => 0 end
   + stop_conditions h)%nat.
Proof.
  unfold stop_conditions. rewrite control_writes_cons.
  destruct e as [v| | |]; cbn [control_of from_option app]; try reflexivity.
  cbn [List.filter]. destruct (is_stop v); reflexivity.
Qed.

Lemma data_writes_nil : data_writes [] = [].
Proof. reflexivity. Qed.
Lemma stores_nil : stores [] = [].
Proof. reflexivity. Qed.
Lemma control_writes_nil : control_writes [] = [].
Proof. reflexivity. Qed.
Lemma stop_conditions_nil : stop_conditions [] = 0%nat.
Proof. reflexivity. Qed.

(** ** The interrupt routine, status by status *)

Ltac by_status H :=
  intros H; unfold interrupt, twi_event, ISR, GET_COMMUNICATION_STATUS;
  unfold status_of in *; rewrite H; simpl; rewrite H; reflexivity.

Lemma interrupt_start e s :
  status_of e = MASTER_START_TRANSMISSION_DONE_08 \/
  status_of e = MASTER_REPEATED_START_TRANSMISSION_DONE_10 ->
  interrupt e s =
  REQUEST_SEND_WITH_ACK (write_TWDR (i2cAddress s) (set_TWSR (fst e) s)).
Proof. intros [H|H]; revert H; by_status H. Qed.

Lemma interrupt_MS_ack e s :
  status_of e = MS_STARTBIT_TRANSMITTED_AND_ACK_RECEIVED_18 \/
  status_of e = MS_DATA_TRANSMITTED_ACK_RECEIVED_28 ->
  interrupt e s =
  let s := set_TWSR (fst e) s in
  if dataPointer s <? nbDataToSend s then
    REQUEST_SEND_WITH_ACK
      (write_TWDR (load (i2cBuffer s) (dataPointer s) s)
                  (set_dataPointer (u8 (dataPointer s + 1)) s))
  else set_driverState I2C_READY (SEND_STOP_CONDITION s).
Proof. intros [H|H]; revert H; by_status H. Qed.

Lemma interrupt_MS_nack e s :
  status_of e = MS_STARTBIT_TRANSMITTED_AND_NO_ACK_RECEIVED_20 \/
  status_of e = MS_DATA_TRANSMITTED_NO_ACK_RECEIVED_30 ->
  interrupt e s =
  set_driverState I2C_READY
    (SEND_STOP_CONDITION
       (set_lastRequestStatus I2C_MISSING_ACK (set_TWSR (fst e) s))).
Proof. intros [H|H]; revert H; by_status H. Qed.

Lemma interrupt_MR_address_ack e s :
  status_of e = MR_STARTBIT_TRANSMITED_AND_ACK_RECEIVED_40 ->
  interrupt e s =
  let s := set_TWSR (fst e) s in
  if dataPointer s <? nbDataToSend s - 1 then REQUEST_SEND_WITH_ACK s
  else REQUEST_SEND_WITHOUT_ACK s.
Proof. by_status H. Qed.

Lemma interrupt_MR_data_ack e s :
  status_of e = MR_DATA_RECEIVED_ACK_RETURN_50 ->
  interrupt e s =
  let s := set_TWDR (snd e) (set_TWSR (fst e) s) in
  let s := set_dataPointer (u8 (dataPointer s + 1))
             (store (masterReceivedBuffer s) (dataPointer s) (TWDR s) s) in
  if dataPointer s <? nbDataToSend s - 1 then REQUEST_SEND_WITH_ACK s
  else REQUEST_SEND_WITHOUT_ACK s.
Proof. by_status H. Qed.

Lemma interrupt_MR_data_nack e s :
  status_of e = MR_DATA_RECEIVED_NO_ACK_RETURN_58 ->
  interrupt e s =
  let s := set_TWDR (snd e) (set_TWSR (fst e) s) in
  let s := set_dataPointer (u8 (dataPointer s + 1))
             (store (masterReceivedBuffer s) (dataPointer s) (TWDR s) s) in
  set_driverState I2C_READY (SEND_STOP_CONDITION s).
Proof. by_status H. Qed.

Lemma interrupt_MR_address_nack e s :
  status_of e = MR_STARTBIT_TRANSMITTED_AND_NO_ACK_RECEIVED_48 ->
  interrupt e s =
  set_driverState I2C_READY (SEND_STOP_CONDITION (set_TWSR (fst e) s)).
Proof. by_status H. Qed.

Lemma interrupt_arbitration_lost e s :
  status_of e = MASTER_ARBITRATION_LOST_38 ->
  interrupt e s =
  twi_releaseBus (set_lastRequestStatus I2C_LOST_ARBITRATION (set_TWSR (fst e) s)).
Proof. by_status H. Qed.

Lemma interrupt_bus_error e s :
  status_of e = COMMON_BUS_EEOR_00 ->
  interrupt e s =
  set_driverState I2C_READY
    (SEND_STOP_CONDITION
       (set_lastRequestStatus I2C_BUS_ERROR (set_TWSR (fst e) s))).
Proof. by_status H. Qed.


(** ** Simplification of states *)

Ltac sim :=
  cbn [TWCR TWDR TWSR typeOfCommunication driverState i2cBuffer i2cAddress
       dataPointer masterReceivedBuffer nbDataToSend lastRequestStatus ram
       history set_TWCR set_TWDR set_TWSR set_typeOfCommunication
       set_driverState set_i2cBuffer set_i2cAddress set_dataPointer
       set_masterReceivedBuffer set_nbDataToSend set_lastRequestStatus
       set_ram record write_TWCR write_TWDR store
       SEND_START_CONDITION SEND_STOP_CONDITION REQUEST_SEND_WITH_ACK
       REQUEST_SEND_WITHOUT_ACK twi_releaseBus GET_COMMUNICATION_STATUS
       fst snd is_ready] in *.

Lemma is_start_start : is_start SEND_START_CONDITION_value = true.
Proof. reflexivity. Qed.
Lemma is_stop_start : is_stop SEND_START_CONDITION_value = false.
Proof. reflexivity. Qed.
Lemma clears_start : clears_TWINT SEND_START_CONDITION_value = true.
Proof. reflexivity. Qed.
Lemma is_start_stop : is_start SEND_STOP_CONDITION_value = false.
Proof. reflexivity. Qed.
Lemma is_stop_stop : is_stop SEND_STOP_CONDITION_value = true.
Proof. reflexivity. Qed.
Lemma clears_stop : clears_TWINT SEND_STOP_CONDITION_value = true.
Proof. reflexivity. Qed.
Lemma is_start_with_ack : is_start REQUEST_SEND_WITH_ACK_value = false.
Proof. reflexivity. Qed.
Lemma is_stop_with_ack : is_stop REQUEST_SEND_WITH_ACK_value = false.
Proof. reflexivity. Qed.
Lemma clears_with_ack : clears_TWINT REQUEST_SEND_WITH_ACK_value = true.
Proof. reflexivity. Qed.
Lemma has_ack_with_ack : has_ack REQUEST_SEND_WITH_ACK_value = true.
Proof. reflexivity. Qed.
Lemma is_start_without_ack : is_start REQUEST_SEND_WITHOUT_ACK_value = false.
Proof. reflexivity. Qed.
Lemma is_stop_without_ack : is_stop REQUEST_SEND_WITHOUT_ACK_value = false.
Proof. reflexivity. Qed.
Lemma clears_without_ack : clears_TWINT REQUEST_SEND_WITHOUT_ACK_value = true.
Proof. reflexivity. Qed.
Lemma has_ack_without_ack : has_ack REQUEST_SEND_WITHOUT_ACK_value = false.
Proof. reflexivity. Qed.
Lemma is_start_release : is_start releaseBus_value = false.
Proof. reflexivity. Qed.
Lemma is_stop_release : is_stop releaseBus_value = false.
Proof. reflexivity. Qed.
Lemma clears_release : clears_TWINT releaseBus_value = true.
Proof. reflexivity. Qed.

Create Rewrite HintDb twi.

#[local] Hint Rewrite is_start_start is_stop_start clears_start
  is_start_stop is_stop_stop clears_stop
  is_start_with_ack is_stop_with_ack clears_with_ack has_ack_with_ack
  is_start_without_ack is_stop_without_ack clears_without_ack has_ack_without_ack
  is_start_release is_stop_release clears_release : twi.
#[local] Hint Rewrite since_start_snoc control_writes_snoc data_writes_snoc
  stores_snoc stop_conditions_snoc control_writes_cons data_writes_cons
  stores_cons stop_conditions_cons control_writes_nil data_writes_nil
  stores_nil stop_conditions_nil app_nil_r Nat.add_0_r : twi.

Ltac hist :=
  repeat (autorewrite with twi in *;
          cbn [starts_transaction control_of data_of store_of from_option negb
               app Nat.add tail length] in * ).

Lemma one_of_In l st : one_of l st = true <-> In st l.
Proof.
  unfold one_of. rewrite existsb_exists. split.
  - intros (x & Hx & He). apply Z.eqb_eq in He. subst. exact Hx.
  - intros H. exists st. split; [exact H|apply Z.eqb_refl].
Qed.

Lemma length_tail_snoc {A} (l : list A) x :
  l <> [] -> length (tail (l ++ [x])) = S (length (tail l)).
Proof. destruct l; [congruence|]. intros _. cbn. rewrite length_app. cbn. lia. Qed.


Ltac unfold_phases :=
  unfold consistent, direction_ok, in_flight, started, addressed, sending,
    receiving, over, bytes_processed, transaction,
    GET_COMMUNICATION_STATUS in *.


Lemma consistent_sendTo s a p l :
  driverState s = I2C_READY -> 0 <= l < 256 -> consistent (snd (sendTo a p l s)).
Proof.
  intros Hr Hl. unfold sendTo. rewrite Hr.
  unfold_phases. sim. hist.
  repeat split; try lia; [apply shifted_address_even|].
  left. split; [split; reflexivity|]. left. split; reflexivity.
Qed.

Lemma consistent_readFrom s a p l :
  driverState s = I2C_READY -> 1 <= l < 256 -> consistent (snd (readFrom a p l s)).
Proof.
  intros Hr Hl. unfold readFrom. rewrite Hr.
  unfold_phases. sim. hist.
  repeat split; try lia; [apply shifted_address_odd|].
  left. split; [split; reflexivity|]. left. split; reflexivity.
Qed.

Ltac cases_of H :=
  apply one_of_In in H; cbn [In] in H;
  repeat match type of H with
         | _ \/ _ => destruct H as [H|H]
         | False => destruct H
         end; symmetry in H.


Ltac atom Hm :=
  first [ reflexivity | lia | assumption | congruence
        | rewrite Hm; reflexivity
        | rewrite length_tail_snoc by assumption; lia
        | rewrite length_app; cbn [length]; lia
        | (intros Hnil; apply app_eq_nil in Hnil; destruct Hnil; discriminate) ].

Ltac pick Hm :=
  first [ solve [left; split; [repeat split; atom Hm|]; left; repeat split; atom Hm]
        | solve [left; split; [repeat split; atom Hm|]; right; left; repeat split; atom Hm]
        | solve [left; split; [repeat split; atom Hm|]; right; right; left; repeat split; atom Hm]
        | solve [left; split; [repeat split; atom Hm|]; right; right; right;
                 split; [atom Hm|split; [atom Hm|]];
                 first [left; split; atom Hm | right; split; atom Hm]]
        | solve [right; split; [atom Hm|]; first [left; atom Hm | right; split; atom Hm]] ].



Ltac eval_one_of H :=
  repeat match type of H with
         | context [one_of ?l ?c] =>
             lazymatch c with
             | context [Z.land] => fail
             | context [status_of] => fail
             | _ => idtac
             end;
             let b := eval vm_compute in (one_of l c) in
             progress change (one_of l c) with b in H
         end.

Ltac rewrite_interrupt :=
  first [ rewrite interrupt_start by auto
        | rewrite interrupt_MS_ack by auto
        | rewrite interrupt_MS_nack by auto
        | rewrite interrupt_MR_address_ack by auto
        | rewrite interrupt_MR_data_ack by auto
        | rewrite interrupt_MR_data_nack by auto
        | rewrite interrupt_MR_address_nack by auto
        | rewrite interrupt_arbitration_lost by auto
        | rewrite interrupt_bus_error by auto ].

Ltac split_ltb :=
  repeat match goal with
         | |- context [?a <? ?b] => destruct (Z.ltb_spec a b)
         end.

Ltac step_case Hm Htr Hty :=
  unfold status_of in Hm; rewrite_interrupt;
  sim; rewrite ?u8_small by lia; split_ltb; rewrite ?u8_small by lia;
  sim; hist; rewrite ?Htr, ?Hty in *; hist;
  (split; [lia|]); (split; [atom Hm|]); (split; [solve [auto]|]);
  pick Hm.

Lemma consistent_interrupt s e :
  consistent s -> twi_may_raise s (status_of e) = true -> consistent (interrupt e s).
Proof.
  intros Hc Hm. unfold twi_may_raise in Hm. unfold_phases.
  destruct Hc as (Hr & Hp & Hd & [[[Hds Hstops] [Hph|[Hph|[Hph|Hph]]]]|Hov]).
  - (* started *)
    destruct Hph as [Hcr Htr]. rewrite Hcr in Hm. hist. cases_of Hm.
    all: destruct (typeOfCommunication s) eqn:Hty; try contradiction.
    all: step_case Hm Htr Hty.
  - (* addressed *)
    destruct Hph as (Hcr & Hprev & Hdr & Htr). rewrite Hcr, Hprev, Hdr in Hm. hist.
    rewrite Htr in *. hist.
    destruct (typeOfCommunication s) eqn:Hty; try contradiction.
    + rewrite Hd in Hm. cases_of Hm. all: step_case Hm Htr Hty.
    + destruct Hd as [Hd Hlen]. rewrite Hd in Hm. cases_of Hm.
      all: step_case Hm Htr Hty.
  - (* sending *)
    destruct Hph as (Hcr & Hprev & Hty & Hdw). rewrite Hcr in Hm. hist.
    rewrite Hty in *.
    cases_of Hprev; rewrite Hprev in Hm; eval_one_of Hm; cbn [negb] in Hm; cases_of Hm.
    all: step_case Hm Hty Hty.
  - (* receiving *)
    destruct Hph as (Hprev & Hty & [[Hcr Hdp]|[Hcr Hdp]]); rewrite Hcr in Hm; hist.
    all: rewrite Hty in *; destruct Hd as [Hd Hlen].
    all: cases_of Hprev; rewrite Hprev in Hm; eval_one_of Hm; cbn [negb] in Hm; cases_of Hm.
    all: step_case Hm Hty Hty.
  - (* over *)
    destruct Hov as (Hds & [Hcr|[Hcr Hprev]]); rewrite Hcr in Hm; hist.
    + discriminate.
    + rewrite Hprev in Hm. eval_one_of Hm. discriminate.
Qed.


(** ** Reachable states *)

Lemma reachable_consistent s : reachable 1 s -> consistent s.
Proof.
  induction 1 as [s a p l Hr Hl|s a p l Hr Hl|s e _ IH Hm].
  - apply consistent_sendTo; assumption.
  - apply consistent_readFrom; assumption.
  - apply consistent_interrupt; assumption.
Qed.

Lemma sendTo_busy a p l s : driverState s <> I2C_READY -> snd (sendTo a p l s) = s.
Proof. unfold sendTo. destruct (driverState s); cbn; congruence. Qed.

Lemma readFrom_busy a p l s : driverState s <> I2C_READY -> snd (readFrom a p l s) = s.
Proof. unfold readFrom. destruct (driverState s); cbn; congruence. Qed.

(** Once a stop condition has been commanded, or the bus has been given up,
    the hardware raises nothing further. *)
Lemma silent_after_stop s : TWCR s = SEND_STOP_CONDITION_value -> silent s.
Proof. intros H st. unfold twi_may_raise. rewrite H. reflexivity. Qed.

Lemma silent_after_release s :
  TWCR s = releaseBus_value ->
  GET_COMMUNICATION_STATUS s = MASTER_ARBITRATION_LOST_38 -> silent s.
Proof. intros H Hs st. unfold twi_may_raise. rewrite H, Hs. reflexivity. Qed.

Lemma silent_conformant s evs : silent s -> conformant s evs = true -> evs = [].
Proof.
  intros Hs. destruct evs as [|e evs]; [reflexivity|].
  cbn [conformant]. rewrite Hs. discriminate.
Qed.

Lemma may_raise_status s st :
  twi_may_raise s st = true ->
  In st [MASTER_START_TRANSMISSION_DONE_08;
         MASTER_REPEATED_START_TRANSMISSION_DONE_10;
         MS_STARTBIT_TRANSMITTED_AND_ACK_RECEIVED_18;
         MS_STARTBIT_TRANSMITTED_AND_NO_ACK_RECEIVED_20;
         MS_DATA_TRANSMITTED_ACK_RECEIVED_28;
         MS_DATA_TRANSMITTED_NO_ACK_RECEIVED_30;
         MASTER_ARBITRATION_LOST_38;
         MR_STARTBIT_TRANSMITED_AND_ACK_RECEIVED_40;
         MR_STARTBIT_TRANSMITTED_AND_NO_ACK_RECEIVED_48;
         MR_DATA_RECEIVED_ACK_RETURN_50;
         MR_DATA_RECEIVED_NO_ACK_RETURN_58;
         COMMON_BUS_EEOR_00].
Proof.
  unfold twi_may_raise.
  repeat match goal with
         | |- context [if ?c then _ else _] =>
             lazymatch c with
             | context [if _ then _ else _] => fail
             | _ => destruct c
             end
         end; try discriminate.
  all: intros H; apply one_of_In in H; cbn [In] in *; intuition auto.
Qed.

(** A state from which the hardware may still raise an event belongs to a
    transaction in flight, whatever lengths the facade was called with. *)
Lemma flight_sendTo s a p l :
  driverState s = I2C_READY -> in_flight (snd (sendTo a p l s)).
Proof.
  intros Hr. unfold sendTo. rewrite Hr. unfold in_flight, transaction.
  sim. hist. split; reflexivity.
Qed.

Lemma flight_readFrom s a p l :
  driverState s = I2C_READY -> in_flight (snd (readFrom a p l s)).
Proof.
  intros Hr. unfold readFrom. rewrite Hr. unfold in_flight, transaction.
  sim. hist. split; reflexivity.
Qed.

Lemma flight_interrupt s e :
  in_flight s -> twi_may_raise s (status_of e) = true ->
  in_flight (interrupt e s) \/ silent (interrupt e s).
Proof.
  intros [Hds Hst] Hm. apply may_raise_status in Hm. cbn [In] in Hm.
  unfold in_flight, transaction in *.
  repeat match type of Hm with
         | _ \/ _ => destruct Hm as [Hm|Hm]
         | False => destruct Hm
         end; symmetry in Hm.
  all: rewrite_interrupt; sim; split_ltb; sim; hist.
  all: first [ left; split; [assumption|lia]
             | right; apply silent_after_stop; reflexivity
             | right; apply silent_after_release;
               [reflexivity|unfold GET_COMMUNICATION_STATUS; sim; exact Hm] ].
Qed.

Lemma reachable_flight m s :
  reachable m s -> in_flight s \/ silent s.
Proof.
  induction 1 as [s a p l Hr Hl|s a p l Hr Hl|s e _ IH Hm].
  - left. apply flight_sendTo; assumption.
  - left. apply flight_readFrom; assumption.
  - destruct IH as [IH|IH]; [apply flight_interrupt; assumption|].
    rewrite IH in Hm. discriminate.
Qed.

Lemma reachable_in_flight m s st :
  reachable m s -> twi_may_raise s st = true -> in_flight s.
Proof.
  intros Hr Hm. destruct (reachable_flight m s Hr) as [H|H]; [exact H|].
  rewrite H in Hm. discriminate.
Qed.

(** ** A master-send transaction with an acknowledging peer *)

Ltac acked Hack :=
  unfold mt_acknowledged, mr_acknowledged in Hack;
  match goal with
  | Hm : status_of _ = _ |- _ => rewrite Hm in Hack
  end;
  try (vm_compute in Hack; discriminate Hack).

Lemma send_loop (n : nat) : forall s evs,
  Z.of_nat n = nbDataToSend s - dataPointer s ->
  0 <= dataPointer s -> nbDataToSend s < 256 ->
  driverState s = I2C_MASTER_TRANSMIT ->
  TWCR s = REQUEST_SEND_WITH_ACK_value ->
  (one_of [MASTER_START_TRANSMISSION_DONE_08;
           MASTER_REPEATED_START_TRANSMISSION_DONE_10]
          (GET_COMMUNICATION_STATUS s) = true /\ Z.testbit (TWDR s) 0 = false) \/
  one_of [MS_STARTBIT_TRANSMITTED_AND_ACK_RECEIVED_18;
          MS_DATA_TRANSMITTED_ACK_RECEIVED_28]
         (GET_COMMUNICATION_STATUS s) = true ->
  (i2cBuffer s + Z.to_nat (nbDataToSend s) <= length (ram s))%nat ->
  conformant s evs = true -> forallb mt_acknowledged evs = true ->
  length evs = S n ->
  driverState (run evs s) = I2C_READY /\
  history (run evs s) =
    history s
    ++ sent (take n (drop (i2cBuffer s + Z.to_nat (dataPointer s)) (ram s)))
    ++ [SetTWCR SEND_STOP_CONDITION_value; SetTWCR SEND_STOP_CONDITION_value]
  /\ dataPointer (run evs s) = nbDataToSend s
  /\ ram (run evs s) = ram s
  /\ lastRequestStatus (run evs s) = lastRequestStatus s.
Proof.
  induction n as [|n IH]; intros s evs Hn Hdp Hlen Hds Hcr Hphase Hbuf Hc Hack Hend.
  all: destruct evs as [|e evs]; [discriminate Hend|].
  all: cbn [conformant forallb run length] in *.
  all: apply andb_true_iff in Hc as [Hm Hc], Hack as [Hack Hacks].
  all: unfold twi_may_raise in Hm; rewrite Hcr in Hm; hist.
  all: assert (Hst : status_of e = MS_STARTBIT_TRANSMITTED_AND_ACK_RECEIVED_18 \/
                     status_of e = MS_DATA_TRANSMITTED_ACK_RECEIVED_28)
         by (destruct Hphase as [[Hprev Hbit]|Hprev];
             [ rewrite Hprev, Hbit in Hm
             | unfold GET_COMMUNICATION_STATUS in *; cases_of Hprev;
               rewrite Hprev in Hm; eval_one_of Hm; cbn [negb] in Hm ];
             cases_of Hm; acked Hack; auto).
  all: clear Hm Hack; rewrite interrupt_MS_ack in * by exact Hst; sim.
  all: destruct (Z.ltb_spec (dataPointer s) (nbDataToSend s)) as [Hlt|Hge]; try lia.
  - (* every byte has been handed over: stop *)
    destruct evs; [|discriminate Hend].
    cbn [run]. sim. rewrite <- !app_assoc. repeat split; try reflexivity. lia.
  - (* one more byte *)
    rewrite u8_small in * by lia.
    match type of Hc with conformant ?s1 _ = _ => set (s' := s1) in * end.
    destruct (IH s' evs) as (Hr & Hh & Hp & Hram & Herr); subst s'; sim;
      try assumption; try lia.
    { right. unfold GET_COMMUNICATION_STATUS. sim.
      apply one_of_In. cbn [In]. unfold status_of in Hst. intuition auto. }
    rewrite Hh, Hp, Hram, Herr. repeat split; try reflexivity; try assumption.
    replace (Z.to_nat (dataPointer s + 1)) with (S (Z.to_nat (dataPointer s))) by lia.
    rewrite Nat.add_succ_r.
    assert (Hin : (i2cBuffer s + Z.to_nat (dataPointer s) < length (ram s))%nat) by lia.
    apply lookup_lt_is_Some_2 in Hin as [b Hb].
    rewrite (drop_S _ _ _ Hb). unfold load. sim. rewrite Hb.
    cbn [take sent flat_map default option_rect app]. unfold sent.
    rewrite <- !app_assoc. reflexivity.
Qed.

(** The state in which the address byte is on its way. *)
Lemma sendTo_started s a p l e :
  driverState s = I2C_READY ->
  twi_may_raise (snd (sendTo a p l s)) (status_of e) = true ->
  mt_acknowledged e = true ->
  let s2 := interrupt e (snd (sendTo a p l s)) in
  (driverState s2 = I2C_MASTER_TRANSMIT /\
   TWCR s2 = REQUEST_SEND_WITH_ACK_value /\
   one_of [MASTER_START_TRANSMISSION_DONE_08;
           MASTER_REPEATED_START_TRANSMISSION_DONE_10]
          (GET_COMMUNICATION_STATUS s2) = true /\
   Z.testbit (TWDR s2) 0 = false) /\
  (dataPointer s2 = 0 /\ nbDataToSend s2 = l /\ i2cBuffer s2 = p /\
   ram s2 = ram s /\ lastRequestStatus s2 = lastRequestStatus s) /\
  history s2 =
    history s ++ [SetTWCR SEND_START_CONDITION_value; SetTWDR (u8 (Z.shiftl a 1));
                  SetTWCR REQUEST_SEND_WITH_ACK_value].
Proof.
  intros Hr Hm Hack. unfold sendTo in *. rewrite Hr in *. sim.
  unfold twi_may_raise in Hm. sim. hist. cases_of Hm; acked Hack.
  all: rewrite interrupt_start by auto; unfold GET_COMMUNICATION_STATUS; sim.
  all: unfold status_of in Hm; rewrite Hm, <- !app_assoc.
  all: repeat split; try reflexivity; apply shifted_address_even.
Qed.

Lemma master_send_run s a p l evs :
  driverState s = I2C_READY -> 0 <= l < 256 ->
  (p + Z.to_nat l <= length (ram s))%nat ->
  conformant (snd (sendTo a p l s)) evs = true ->
  forallb mt_acknowledged evs = true ->
  length evs = Z.to_nat (l + 2) ->
  driverState (run evs (snd (sendTo a p l s))) = I2C_READY /\
  history (run evs (snd (sendTo a p l s))) =
    history s
    ++ [SetTWCR SEND_START_CONDITION_value; SetTWDR (u8 (Z.shiftl a 1));
        SetTWCR REQUEST_SEND_WITH_ACK_value]
    ++ sent (buffer_bytes p l s)
    ++ [SetTWCR SEND_STOP_CONDITION_value; SetTWCR SEND_STOP_CONDITION_value]
  /\ dataPointer (run evs (snd (sendTo a p l s))) = l
  /\ ram (run evs (snd (sendTo a p l s))) = ram s
  /\ lastRequestStatus (run evs (snd (sendTo a p l s))) = lastRequestStatus s.
Proof.
  intros Hr Hl Hbuf Hc Hack Hlen.
  destruct evs as [|e evs]; [cbn [length] in Hlen; lia|].
  cbn [conformant forallb run length] in Hc, Hack, Hlen |- *.
  apply andb_true_iff in Hc as [Hm Hc], Hack as [Hack Hacks].
  destruct (sendTo_started s a p l e Hr Hm Hack)
    as ((Hds & Hcr & Hprev & Hbit) & (Hdp & Hnb & Hbuf' & Hram & Herr) & Hh).
  revert Hc Hds Hcr Hprev Hbit Hdp Hnb Hbuf' Hram Herr Hh.
  generalize (interrupt e (snd (sendTo a p l s))). intros s2; intros.
  destruct (send_loop (Z.to_nat l) s2 evs) as (Hd & Hh' & Hp' & Hram' & Herr');
    try assumption; try lia;
    [left; split; assumption|rewrite Hbuf', Hnb, Hram; exact Hbuf|].
  rewrite Hh', Hp', Hram', Herr', Hh, Hdp, Hnb, Hbuf', Hram, Herr.
  split; [exact Hd|]. split; [|repeat split; reflexivity].
  unfold buffer_bytes. change (Z.to_nat 0) with 0%nat.
  rewrite Nat.add_0_r, <- !app_assoc. reflexivity.
Qed.

(** ** A master-receive transaction *)

Lemma receive_loop (n : nat) : forall s evs,
  Z.of_nat n = nbDataToSend s - dataPointer s - 1 ->
  0 <= dataPointer s -> nbDataToSend s < 256 ->
  driverState s = I2C_MASTER_TRANSMIT ->
  one_of [MR_STARTBIT_TRANSMITED_AND_ACK_RECEIVED_40;
          MR_DATA_RECEIVED_ACK_RETURN_50] (GET_COMMUNICATION_STATUS s) = true ->
  (TWCR s = REQUEST_SEND_WITH_ACK_value /\ (1 <= n)%nat) \/
  (TWCR s = REQUEST_SEND_WITHOUT_ACK_value /\ n = 0%nat) ->
  conformant s evs = true -> forallb mr_acknowledged evs = true ->
  length evs = S n ->
  driverState (run evs s) = I2C_READY /\
  control_writes (transaction (run evs s)) =
    control_writes (transaction s) ++ pending_requests n
    ++ [SEND_STOP_CONDITION_value; SEND_STOP_CONDITION_value] /\
  map snd (stores (transaction (run evs s))) =
    map snd (stores (transaction s)) ++ map snd evs /\
  dataPointer (run evs s) = nbDataToSend s /\
  lastRequestStatus (run evs s) = lastRequestStatus s.
Proof.
  induction n as [|n IH]; intros s evs Hn Hdp Hlen Hds Hprev Hcr Hc Hack Hend.
  all: destruct evs as [|e evs]; [discriminate Hend|].
  all: cbn [conformant forallb run length map] in *.
  all: apply andb_true_iff in Hc as [Hm Hc], Hack as [Hack Hacks].
  all: unfold twi_may_raise, GET_COMMUNICATION_STATUS in Hm, Hprev.
  all: destruct Hcr as [[Hcr Hn1]|[Hcr Hn0]]; try lia; try discriminate Hn0.
  all: rewrite Hcr in Hm; hist; cases_of Hprev; rewrite Hprev in Hm.
  all: eval_one_of Hm; cbn [negb] in Hm; cases_of Hm; acked Hack; clear Hack.
  (* the final byte *)
  1-2: destruct evs; [|discriminate Hend].
  1-2: rewrite interrupt_MR_data_nack by exact Hm; cbn [run]; unfold transaction.
  1-2: sim; hist; rewrite u8_small by lia.
  1-2: rewrite map_app; cbn [pending_requests app map snd].
  1-2: rewrite <- ?app_assoc; cbn [app].
  1-2: repeat split; try reflexivity; lia.
  (* a byte that is not the last *)
  all: rewrite interrupt_MR_data_ack in * by exact Hm.
  all: match type of Hc with conformant ?s1 _ = _ => set (s' := s1) in * end.
  all: destruct (IH s' evs) as (Hr & Hcw & Hsw & Hp & Herr); try assumption.
  all: try (subst s'; unfold GET_COMMUNICATION_STATUS; sim;
            rewrite ?u8_small by lia; split_ltb; sim;
            first [ lia | reflexivity | assumption
                  | unfold status_of in Hm; rewrite Hm; reflexivity
                  | left; split; [reflexivity|lia]
                  | right; split; [reflexivity|lia] ]).
  all: rewrite Hcw, Hsw, Hp, Herr; split; [exact Hr|].
  all: subst s'; unfold transaction; sim; rewrite ?u8_small by lia.
  all: split_ltb; sim; hist; rewrite map_app, <- !app_assoc; cbn [map snd app].
  all: destruct n as [|m]; try lia.
  all: repeat split; reflexivity.
Qed.

(** The state in which the address byte of a read is on its way. *)
Lemma readFrom_started s a p l e :
  driverState s = I2C_READY ->
  twi_may_raise (snd (readFrom a p l s)) (status_of e) = true ->
  mr_acknowledged e = true ->
  let s2 := interrupt e (snd (readFrom a p l s)) in
  (driverState s2 = I2C_MASTER_TRANSMIT /\
   TWCR s2 = REQUEST_SEND_WITH_ACK_value /\
   one_of [MASTER_START_TRANSMISSION_DONE_08;
           MASTER_REPEATED_START_TRANSMISSION_DONE_10]
          (GET_COMMUNICATION_STATUS s2) = true /\
   Z.testbit (TWDR s2) 0 = true) /\
  (dataPointer s2 = 0 /\ nbDataToSend s2 = l /\
   lastRequestStatus s2 = lastRequestStatus s) /\
  transaction s2 =
    [SetTWDR (u8 (Z.shiftl a 1 + 1)); SetTWCR REQUEST_SEND_WITH_ACK_value].
Proof.
  intros Hr Hm Hack. unfold readFrom in *. rewrite Hr in *. sim.
  unfold twi_may_raise in Hm. sim. hist. cases_of Hm; acked Hack.
  all: rewrite interrupt_start by auto; unfold GET_COMMUNICATION_STATUS, transaction; sim.
  all: unfold status_of in Hm; rewrite Hm; hist.
  all: repeat split; try reflexivity; apply shifted_address_odd.
Qed.

(** The address has been acknowledged: the first request is chosen. *)
Lemma address_acknowledged s e :
  TWCR s = REQUEST_SEND_WITH_ACK_value ->
  one_of [MASTER_START_TRANSMISSION_DONE_08;
          MASTER_REPEATED_START_TRANSMISSION_DONE_10]
         (GET_COMMUNICATION_STATUS s) = true ->
  Z.testbit (TWDR s) 0 = true ->
  dataPointer s = 0 -> 1 <= nbDataToSend s ->
  twi_may_raise s (status_of e) = true -> mr_acknowledged e = true ->
  let s3 := interrupt e s in
  let n := Z.to_nat (nbDataToSend s - 1) in
  (driverState s3 = driverState s /\
   one_of [MR_STARTBIT_TRANSMITED_AND_ACK_RECEIVED_40;
           MR_DATA_RECEIVED_ACK_RETURN_50] (GET_COMMUNICATION_STATUS s3) = true /\
   ((TWCR s3 = REQUEST_SEND_WITH_ACK_value /\ (1 <= n)%nat) \/
    (TWCR s3 = REQUEST_SEND_WITHOUT_ACK_value /\ n = 0%nat))) /\
  (dataPointer s3 = 0 /\ nbDataToSend s3 = nbDataToSend s /\
   lastRequestStatus s3 = lastRequestStatus s) /\
  control_writes (transaction s3) ++ pending_requests n =
    control_writes (transaction s) ++ receive_requests (nbDataToSend s) /\
  stores (transaction s3) = stores (transaction s).
Proof.
  intros Hcr Hprev Hbit Hdp Hlen Hm Hack. cbv zeta.
  unfold twi_may_raise in Hm. rewrite Hcr, Hprev, Hbit in Hm. hist.
  cases_of Hm; acked Hack. rewrite interrupt_MR_address_ack by exact Hm.
  unfold GET_COMMUNICATION_STATUS, transaction, receive_requests. cbv zeta. sim.
  unfold status_of in Hm. rewrite Hdp.
  destruct (Z.ltb_spec 0 (nbDataToSend s - 1)) as [Hlt|Hge]; sim; hist; rewrite Hm.
  - destruct (Z.to_nat (nbDataToSend s - 1)) as [|m] eqn:Hn; [lia|].
    cbn [pending_requests replicate app]. rewrite <- !app_assoc.
    repeat split; try reflexivity; try exact Hdp. left. split; [reflexivity|lia].
  - replace (Z.to_nat (nbDataToSend s - 1)) with 0%nat by lia.
    cbn [pending_requests replicate app]. rewrite app_nil_r.
    repeat split; try reflexivity; try exact Hdp. right. split; reflexivity.
Qed.

Lemma master_receive_run s a p l evs :
  driverState s = I2C_READY -> 1 <= l < 256 ->
  conformant (snd (readFrom a p l s)) evs = true ->
  forallb mr_acknowledged evs = true ->
  length evs = Z.to_nat (l + 2) ->
  driverState (run evs (snd (readFrom a p l s))) = I2C_READY /\
  control_writes (transaction (run evs (snd (readFrom a p l s)))) =
    REQUEST_SEND_WITH_ACK_value :: receive_requests l
    ++ [SEND_STOP_CONDITION_value; SEND_STOP_CONDITION_value] /\
  map snd (stores (transaction (run evs (snd (readFrom a p l s))))) =
    map snd (drop 2 evs) /\
  dataPointer (run evs (snd (readFrom a p l s))) = l /\
  lastRequestStatus (run evs (snd (readFrom a p l s))) = lastRequestStatus s.
Proof.
  intros Hr Hl Hc Hack Hlen.
  destruct evs as [|e1 [|e2 evs]]; try (cbn [length] in Hlen; lia).
  cbn [conformant forallb run length drop] in Hc, Hack, Hlen |- *.
  apply andb_true_iff in Hc as [Hm1 Hc], Hack as [Hack1 Hack].
  apply andb_true_iff in Hc as [Hm2 Hc], Hack as [Hack2 Hacks].
  destruct (readFrom_started s a p l e1 Hr Hm1 Hack1)
    as ((Hds & Hcr & Hprev & Hbit) & (Hdp & Hnb & Herr) & Htr).
  revert Hm2 Hc Hds Hcr Hprev Hbit Hdp Hnb Herr Htr.
  generalize (interrupt e1 (snd (readFrom a p l s))). intros s2; intros.
  destruct (address_acknowledged s2 e2 Hcr Hprev Hbit Hdp ltac:(lia) Hm2 Hack2)
    as ((Hds3 & Hprev3 & Hcr3) & (Hdp3 & Hnb3 & Herr3) & Hcw & Hsw).
  revert Hc Hds3 Hprev3 Hcr3 Hdp3 Hnb3 Herr3 Hcw Hsw.
  generalize (interrupt e2 s2). intros s3; intros.
  destruct (receive_loop (Z.to_nat (l - 1)) s3 evs)
    as (Hd & Hcw' & Hsw' & Hp' & Herr'); try assumption; try lia; try congruence.
  rewrite Hcw', Hsw', Hp', Herr', Hsw, Herr3, Herr, Hnb3, Hnb, Htr.
  split; [exact Hd|]. split; [|repeat split; reflexivity].
  rewrite Hnb, Htr in Hcw. rewrite app_assoc, Hcw. reflexivity.
Qed.

(** ** Acknowledging peers exist

    The event sequences of an acknowledging peer are conformant, so the
    hypotheses of [master_send_run] and [master_receive_run] can be met for
    every length. *)

Lemma send_data_conformant (n : nat) : forall s,
  Z.of_nat n <= nbDataToSend s - dataPointer s + 1 ->
  0 <= dataPointer s -> nbDataToSend s < 256 ->
  TWCR s = REQUEST_SEND_WITH_ACK_value ->
  one_of [MS_STARTBIT_TRANSMITTED_AND_ACK_RECEIVED_18;
          MS_DATA_TRANSMITTED_ACK_RECEIVED_28]
         (GET_COMMUNICATION_STATUS s) = true ->
  conformant s (replicate n (MS_DATA_TRANSMITTED_ACK_RECEIVED_28, 0)) = true.
Proof.
  induction n as [|n IH]; intros s Hn Hdp Hlen Hcr Hprev; [reflexivity|].
  cbn [replicate conformant]. apply andb_true_iff. split.
  - unfold twi_may_raise, GET_COMMUNICATION_STATUS in *. rewrite Hcr. hist.
    cases_of Hprev; rewrite Hprev; reflexivity.
  - rewrite interrupt_MS_ack by (right; reflexivity). cbv zeta. sim.
    destruct (Z.ltb_spec (dataPointer s) (nbDataToSend s)) as [Hlt|Hge].
    + apply IH; sim; rewrite ?u8_small by lia; try lia; reflexivity.
    + destruct n; [reflexivity|lia].
Qed.

Lemma send_events_conformant s a p l :
  driverState s = I2C_READY -> 0 <= l < 256 ->
  conformant (snd (sendTo a p l s)) (send_events l) = true /\
  forallb mt_acknowledged (send_events l) = true /\
  length (send_events l) = Z.to_nat (l + 2).
Proof.
  intros Hr Hl. split; [|split].
  - unfold send_events, sendTo. rewrite Hr. sim.
    cbn [conformant]. apply andb_true_iff. split; [reflexivity|].
    rewrite interrupt_start by (left; reflexivity).
    apply andb_true_iff. split.
    + unfold twi_may_raise, GET_COMMUNICATION_STATUS. sim. hist.
      rewrite shifted_address_even. reflexivity.
    + rewrite interrupt_MS_ack by (left; reflexivity). cbv zeta. sim.
      destruct (Z.ltb_spec 0 l) as [Hlt|Hge].
      * apply send_data_conformant; sim; rewrite ?u8_small by lia; try lia; reflexivity.
      * replace l with 0 by lia. reflexivity.
  - unfold send_events. cbn [forallb]. apply andb_true_iff. split; [reflexivity|].
    apply andb_true_iff. split; [reflexivity|].
    induction (Z.to_nat l) as [|n IH]; [reflexivity|].
    cbn [replicate forallb]. rewrite IH. reflexivity.
  - unfold send_events. cbn [length]. rewrite length_replicate. lia.
Qed.

Lemma data_events_acknowledged bytes :
  forallb mr_acknowledged (data_events bytes) = true /\
  length (data_events bytes) = length bytes.
Proof.
  induction bytes as [|b [|b' bytes] [IH1 IH2]]; [split; reflexivity..|].
  change (data_events (b :: b' :: bytes))
    with ((MR_DATA_RECEIVED_ACK_RETURN_50, b) :: data_events (b' :: bytes)).
  cbn [forallb length] in *. rewrite IH2. split; [|reflexivity].
  apply andb_true_iff. split; [reflexivity|exact IH1].
Qed.

Lemma data_events_conformant bytes : forall s,
  Z.of_nat (length bytes) = nbDataToSend s - dataPointer s ->
  0 <= dataPointer s -> nbDataToSend s < 256 ->
  one_of [MR_STARTBIT_TRANSMITED_AND_ACK_RECEIVED_40;
          MR_DATA_RECEIVED_ACK_RETURN_50] (GET_COMMUNICATION_STATUS s) = true ->
  (TWCR s = REQUEST_SEND_WITH_ACK_value /\ (2 <= length bytes)%nat) \/
  (TWCR s = REQUEST_SEND_WITHOUT_ACK_value /\ length bytes = 1%nat) ->
  conformant s (data_events bytes) = true.
Proof.
  induction bytes as [|b [|b' bytes] IH]; intros s Hn Hdp Hlen Hprev Hcr.
  - reflexivity.
  - cbn [data_events conformant length] in *. rewrite andb_true_r.
    destruct Hcr as [[_ Hcr]|[Hcr _]]; [lia|].
    unfold twi_may_raise, GET_COMMUNICATION_STATUS in *. rewrite Hcr. hist.
    cases_of Hprev; rewrite Hprev; reflexivity.
  - change (data_events (b :: b' :: bytes))
      with ((MR_DATA_RECEIVED_ACK_RETURN_50, b) :: data_events (b' :: bytes)).
    cbn [conformant]. cbn [length] in Hn, Hcr.
    destruct Hcr as [[Hcr _]|[_ Hcr]]; [|lia].
    apply andb_true_iff. split.
    + unfold twi_may_raise, GET_COMMUNICATION_STATUS in *. rewrite Hcr. hist.
      cases_of Hprev; rewrite Hprev; reflexivity.
    + rewrite interrupt_MR_data_ack by reflexivity. cbv zeta. sim.
      rewrite u8_small by lia.
      destruct (Z.ltb_spec (dataPointer s + 1) (nbDataToSend s - 1)) as [Hlt|Hge].
      all: apply IH; sim; cbn [length]; try lia; reflexivity.
Qed.

Lemma receive_events_conformant s a p bytes :
  driverState s = I2C_READY -> (1 <= length bytes < 256)%nat ->
  let l := Z.of_nat (length bytes) in
  conformant (snd (readFrom a p l s)) (receive_events bytes) = true /\
  forallb mr_acknowledged (receive_events bytes) = true /\
  length (receive_events bytes) = Z.to_nat (l + 2).
Proof.
  intros Hr Hl l. destruct (data_events_acknowledged bytes) as [Ha Hlen].
  split; [|split].
  - unfold receive_events, readFrom. rewrite Hr. sim.
    cbn [conformant]. apply andb_true_iff. split; [reflexivity|].
    rewrite interrupt_start by (left; reflexivity).
    apply andb_true_iff. split.
    + unfold twi_may_raise, GET_COMMUNICATION_STATUS. sim. hist.
      rewrite shifted_address_odd. reflexivity.
    + rewrite interrupt_MR_address_ack by reflexivity. cbv zeta. sim.
      destruct (Z.ltb_spec 0 (l - 1)) as [Hlt|Hge].
      all: apply data_events_conformant; sim; try lia; reflexivity.
  - unfold receive_events. cbn [forallb]. rewrite Ha. reflexivity.
  - unfold receive_events. cbn [length]. rewrite Hlen. lia.
Qed.

(** ** Histories of whole transactions *)

Lemma since_start_no_start acc h :
  forallb (fun e => negb (starts_transaction e)) h = true ->
  fold_left (fun acc e => if starts_transaction e then [] else acc ++ [e]) h acc
  = acc ++ h.
Proof.
  revert acc. induction h as [|e h IH]; intros acc Hh; cbn [fold_left forallb] in *.
  - rewrite app_nil_r. reflexivity.
  - apply andb_true_iff in Hh as [He Hh]. destruct (starts_transaction e); [discriminate|].
    rewrite IH by exact Hh. rewrite <- app_assoc. reflexivity.
Qed.

Lemma since_start_app_start h e rest :
  starts_transaction e = true ->
  forallb (fun e => negb (starts_transaction e)) rest = true ->
  since_start (h ++ e :: rest) = rest.
Proof.
  intros He Hrest. unfold since_start. rewrite fold_left_app. cbn [fold_left].
  rewrite He. apply (since_start_no_start [] rest Hrest).
Qed.

Lemma sent_no_start bytes :
  forallb (fun e => negb (starts_transaction e)) (sent bytes) = true.
Proof. induction bytes as [|b bytes IH]; [reflexivity|exact IH]. Qed.

Lemma data_writes_app h1 h2 : data_writes (h1 ++ h2) = data_writes h1 ++ data_writes h2.
Proof. unfold data_writes. apply omap_app. Qed.

Lemma stop_conditions_app h1 h2 :
  stop_conditions (h1 ++ h2) = (stop_conditions h1 + stop_conditions h2)%nat.
Proof.
  unfold stop_conditions, control_writes.
  rewrite omap_app, List.filter_app, length_app. reflexivity.
Qed.

Lemma data_writes_sent bytes : data_writes (sent bytes) = bytes.
Proof.
  induction bytes as [|b bytes IH]; [reflexivity|].
  change (sent (b :: bytes))
    with (SetTWDR b :: SetTWCR REQUEST_SEND_WITH_ACK_value :: sent bytes).
  rewrite !data_writes_cons, IH. reflexivity.
Qed.

Lemma stop_conditions_sent bytes : stop_conditions (sent bytes) = 0%nat.
Proof.
  induction bytes as [|b bytes IH]; [reflexivity|].
  change (sent (b :: bytes))
    with (SetTWDR b :: SetTWCR REQUEST_SEND_WITH_ACK_value :: sent bytes).
  rewrite !stop_conditions_cons, IH. reflexivity.
Qed.

(** ** The claims *)


Lemma receiving_after_data s e :
  consistent s ->
  twi_may_raise s (status_of e) = true ->
  status_of e = MR_STARTBIT_TRANSMITED_AND_ACK_RECEIVED_40 \/
  status_of e = MR_DATA_RECEIVED_ACK_RETURN_50 ->
  1 <= nbDataToSend (interrupt e s) - dataPointer (interrupt e s).
Proof.
  intros Hc Hm Hst.
  assert (Hcr : TWCR (interrupt e s) = REQUEST_SEND_WITH_ACK_value \/
                TWCR (interrupt e s) = REQUEST_SEND_WITHOUT_ACK_value)
    by (destruct Hst as [Hst|Hst]; rewrite_interrupt; cbv zeta; split_ltb; sim; auto).
  assert (Hsr : GET_COMMUNICATION_STATUS (interrupt e s) = status_of e)
    by (destruct Hst as [Hst|Hst]; rewrite_interrupt; cbv zeta; split_ltb; reflexivity).
  pose proof (consistent_interrupt s e Hc Hm) as (Hr & _ & _ & Hph).
  revert Hcr Hsr Hr Hph. generalize (interrupt e s). intros t Hcr Hsr Hr Hph.
  destruct Hph as [[_ [Hph|[Hph|[Hph|Hph]]]]|Hph].
  - destruct Hph as [Hs _]. rewrite Hs in Hcr. destruct Hcr; discriminate.
  - destruct Hph as (_ & Hp & _). rewrite Hsr in Hp.
    destruct Hst as [Hst|Hst]; rewrite Hst in Hp; discriminate.
  - destruct Hph as (_ & Hp & _). rewrite Hsr in Hp.
    destruct Hst as [Hst|Hst]; rewrite Hst in Hp; discriminate.
  - destruct Hph as (_ & _ & [[_ Hp]|[_ Hp]]); lia.
  - destruct Hph as (_ & [Hs|[_ Hp]]).
    + rewrite Hs in Hcr. destruct Hcr; discriminate.
    + rewrite Hsr in Hp. destruct Hst as [Hst|Hst]; rewrite Hst in Hp; discriminate.
Qed.

Lemma request_after_data s e :
  status_of e = MR_STARTBIT_TRANSMITED_AND_ACK_RECEIVED_40 \/
  status_of e = MR_DATA_RECEIVED_ACK_RETURN_50 ->
  list.last (history (interrupt e s)) =
  Some (SetTWCR (if 1 <? nbDataToSend (interrupt e s) - dataPointer (interrupt e s)
                 then REQUEST_SEND_WITH_ACK_value
                 else REQUEST_SEND_WITHOUT_ACK_value)).
Proof.
  intros [Hst|Hst]; rewrite_interrupt; cbv zeta; sim.
  all: match goal with
       | |- context [?a <? ?b - 1] => destruct (Z.ltb_spec a (b - 1)) as [Hlt|Hge]
       end; sim; rewrite last_snoc.
  all: match goal with
       | |- context [1 <? ?x] => destruct (Z.ltb_spec 1 x); [|]
       end; try reflexivity; lia.
Qed.

(** C2. A master-receive transaction of [length] bytes, [1 <= length], driven
    by a conformant sequence of events in which the peer acknowledges its
    address and delivers the bytes.  The stores into [TWCR] that follow the
    start condition are: the one that sends the address byte, then
    [length - 1] requests with acknowledge, then one request without
    acknowledge, for the final byte, then the two stores of the stop command
    that [SEND_STOP_CONDITION()] makes; every delivered byte is stored.  The
    choice is made when the address has been acknowledged and after each
    stored byte: with acknowledge when more than one byte remains, without
    when exactly one remains, and at least one always remains. *)
Theorem master_receive_acknowledge_policy s address data length evs :
  driverState s = I2C_READY -> 1 <= length < 256 ->
  conformant (snd (readFrom address data length s)) evs = true ->
  forallb mr_acknowledged evs = true ->
  List.length evs = Z.to_nat (length + 2) ->
  let s' := run evs (snd (readFrom address data length s)) in
  (control_writes (transaction s') =
     REQUEST_SEND_WITH_ACK_value :: receive_requests length
     ++ [SEND_STOP_CONDITION_value; SEND_STOP_CONDITION_value] /\
   map snd (stores (transaction s')) = map snd (drop 2 evs) /\
   dataPointer s' = length /\
   driverState s' = I2C_READY) /\
  (forall t e,
     reachable 1 t -> twi_may_raise t (status_of e) = true ->
     status_of e = MR_STARTBIT_TRANSMITED_AND_ACK_RECEIVED_40 \/
     status_of e = MR_DATA_RECEIVED_ACK_RETURN_50 ->
     let t' := interrupt e t in
     let remaining := nbDataToSend t' - dataPointer t' in
     1 <= remaining /\
     (1 < remaining ->
      list.last (history t') = Some (SetTWCR REQUEST_SEND_WITH_ACK_value)) /\
     (remaining = 1 ->
      list.last (history t') = Some (SetTWCR REQUEST_SEND_WITHOUT_ACK_value))).
Proof.
  intros Hr Hl Hc Hack Hlen s'. split.
  - destruct (master_receive_run s address data length evs Hr Hl Hc Hack Hlen)
      as (Hd & Hcw & Hsw & Hp & _).
    repeat split; assumption.
  - intros t e Ht Hm Hst t' remaining. subst t' remaining.
    pose proof (receiving_after_data t e (reachable_consistent t Ht) Hm Hst) as Hrem.
    pose proof (request_after_data t e Hst) as Hlast.
    revert Hrem Hlast. generalize (interrupt e t). intros t' Hrem Hlast.
    split; [exact Hrem|]. split; intros H; rewrite Hlast.
    + destruct (Z.ltb_spec 1 (nbDataToSend t' - dataPointer t')); [reflexivity|lia].
    + destruct (Z.ltb_spec 1 (nbDataToSend t' - dataPointer t')); [lia|reflexivity].
Qed.



(** C6. In a transaction in flight, when the hardware reports a lost
    arbitration the driver records [I2C_LOST_ARBITRATION], releases the bus
    with a store into [TWCR] that carries no stop bit, so that the
    transaction has no stop condition at all, and is idle. *)
Theorem arbitration_loss_releases m s e :
  reachable m s -> twi_may_raise s (status_of e) = true ->
  status_of e = MASTER_ARBITRATION_LOST_38 ->
  lastRequestStatus (interrupt e s) = I2C_LOST_ARBITRATION /\
  history (interrupt e s) = history s ++ [SetTWCR releaseBus_value] /\
  is_stop releaseBus_value = false /\
  stop_conditions (transaction (interrupt e s)) = 0%nat /\
  driverState (interrupt e s) = I2C_READY.
Proof.
  intros Hr Hm Hst. destruct (reachable_in_flight m s _ Hr Hm) as [_ Hstops].
  unfold transaction in *. rewrite_interrupt. sim. hist. rewrite Hstops.
  repeat split; reflexivity.
Qed.

(** C7, amended.  [sendTo] and [readFrom] return 0 on every call, accepted
    or not: the returned value carries no information. *)
Theorem facade_returns_zero s address data length :
  fst (sendTo address data length s) = 0 /\
  fst (readFrom address data length s) = 0.
Proof. split; reflexivity. Qed.

(** C8. When the address of a read is not acknowledged the driver issues
    the stop condition (the two stores of [SEND_STOP_CONDITION()] into
    [TWCR], and nothing else) and is idle, and [lastRequestStatus] keeps the
    value it had; when the address of a send is not acknowledged the driver
    does the same and records [I2C_MISSING_ACK]. *)
Theorem address_nack_asymmetry s e :
  (status_of e = MR_STARTBIT_TRANSMITTED_AND_NO_ACK_RECEIVED_48 ->
   history (interrupt e s) =
     history s
     ++ [SetTWCR SEND_STOP_CONDITION_value; SetTWCR SEND_STOP_CONDITION_value] /\
   driverState (interrupt e s) = I2C_READY /\
   lastRequestStatus (interrupt e s) = lastRequestStatus s) /\
  (status_of e = MS_STARTBIT_TRANSMITTED_AND_NO_ACK_RECEIVED_20 ->
   history (interrupt e s) =
     history s
     ++ [SetTWCR SEND_STOP_CONDITION_value; SetTWCR SEND_STOP_CONDITION_value] /\
   driverState (interrupt e s) = I2C_READY /\
   lastRequestStatus (interrupt e s) = I2C_MISSING_ACK).
Proof.
  split; intros Hst; rewrite_interrupt; sim; rewrite <- app_assoc;
    repeat split; reflexivity.
Qed.

Lemma shifted_address_value address :
  0 <= address < 128 ->
  Z.shiftr (u8 (Z.shiftl address 1)) 1 = address /\
  Z.shiftr (u8 (Z.shiftl address 1 + 1)) 1 = address.
Proof.
  intros Ha. rewrite !Z.shiftr_div_pow2, Z.shiftl_mul_pow2 by lia.
  change (2 ^ 1) with 2. rewrite !u8_small by lia. split.
  - apply Z.div_mul. lia.
  - symmetry. apply Z.div_unique with (r := 1); lia.
Qed.

(** C9. A call of [sendTo] or [readFrom] on a driver that is not idle
    returns the state it was given: no variable of the transaction changes
    and nothing, in particular no start condition, is commanded.  On an idle
    driver the call stores the kind of transfer, the busy state, the 7-bit
    address shifted left by one with the direction bit (0 for [sendTo], 1 for
    [readFrom]), the buffer, a zero cursor and the length, commands the start
    condition and returns with the transaction in flight. *)
Theorem facade_call s address data length :
  (driverState s <> I2C_READY ->
   snd (sendTo address data length s) = s /\
   snd (readFrom address data length s) = s) /\
  (driverState s = I2C_READY ->
   let t := snd (sendTo address data length s) in
   let r := snd (readFrom address data length s) in
   (typeOfCommunication t = MASTER_SEND /\
    driverState t = I2C_MASTER_TRANSMIT /\
    i2cAddress t = u8 (Z.shiftl address 1) /\
    Z.testbit (i2cAddress t) 0 = false /\
    i2cBuffer t = data /\ dataPointer t = 0 /\ nbDataToSend t = length /\
    history t = history s ++ [SetTWCR SEND_START_CONDITION_value]) /\
   (typeOfCommunication r = MASTER_RECEIVED /\
    driverState r = I2C_MASTER_TRANSMIT /\
    i2cAddress r = u8 (Z.shiftl address 1 + 1) /\
    Z.testbit (i2cAddress r) 0 = true /\
    i2cBuffer r = data /\ masterReceivedBuffer r = data /\
    dataPointer r = 0 /\ nbDataToSend r = length /\
    history r = history s ++ [SetTWCR SEND_START_CONDITION_value]) /\
   is_start SEND_START_CONDITION_value = true /\
   (0 <= address < 128 ->
    Z.shiftr (i2cAddress t) 1 = address /\ Z.shiftr (i2cAddress r) 1 = address)).
Proof.
  split.
  - intros Hb. split; [apply sendTo_busy|apply readFrom_busy]; exact Hb.
  - intros Hr. cbv zeta. unfold sendTo, readFrom. rewrite Hr. sim.
    repeat split; try reflexivity.
    + apply shifted_address_even.
    + apply shifted_address_odd.
    + apply shifted_address_value. assumption.
    + apply shifted_address_value. assumption.
Qed.

Lemma progress_keeps_error e s :
  acknowledged e = true ->
  lastRequestStatus (interrupt e s) = lastRequestStatus s.
Proof.
  intros Ha. apply orb_true_iff in Ha. unfold mt_acknowledged, mr_acknowledged in Ha.
  destruct Ha as [Ha|Ha]; cases_of Ha.
  all: rewrite_interrupt; cbv zeta; sim; split_ltb; reflexivity.
Qed.

Lemma run_keeps_error evs : forall s,
  forallb acknowledged evs = true ->
  lastRequestStatus (run evs s) = lastRequestStatus s.
Proof.
  induction evs as [|e evs IH]; intros s Ha; [reflexivity|].
  cbn [forallb run] in *. apply andb_true_iff in Ha as [He Ha].
  rewrite IH by exact Ha. apply progress_keeps_error. exact He.
Qed.

(** C10. [sendTo] and [readFrom] leave [lastRequestStatus] as it is, and so
    does every event that reports progress (start sent, address or data
    acknowledged, data received): whatever [lastRequestStatus] held when a
    transaction was started, an earlier error included, it still holds when
    the transaction has run through without an error. *)
Theorem last_error_is_never_cleared s address data length evs :
  forallb acknowledged evs = true ->
  lastRequestStatus (snd (sendTo address data length s)) = lastRequestStatus s /\
  lastRequestStatus (snd (readFrom address data length s)) = lastRequestStatus s /\
  lastRequestStatus (run evs (snd (sendTo address data length s)))
    = lastRequestStatus s /\
  lastRequestStatus (run evs (snd (readFrom address data length s)))
    = lastRequestStatus s.
Proof.
  intros Ha.
  assert (Hs : lastRequestStatus (snd (sendTo address data length s)) = lastRequestStatus s)
    by (unfold sendTo; destruct (driverState s); reflexivity).
  assert (Hr : lastRequestStatus (snd (readFrom address data length s)) = lastRequestStatus s)
    by (unfold readFrom; destruct (driverState s); reflexivity).
  rewrite !run_keeps_error by exact Ha. repeat split; assumption.
Qed.

(** ** The claims at concrete inputs *)

Lemma reachable_run m evs : forall s,
  reachable m s -> conformant s evs = true -> reachable m (run evs s).
Proof.
  induction evs as [|e evs IH]; intros s Hr Hc; [exact Hr|].
  cbn [conformant run] in *. apply andb_true_iff in Hc as [Hm Hc].
  apply IH; [|exact Hc]. apply reach_interrupt; assumption.
Qed.

Ltac reach :=
  lazymatch goal with
  | |- reachable _ (interrupt _ _) =>
      apply reach_interrupt; [reach|vm_compute; reflexivity]
  | |- reachable _ (snd (sendTo _ _ _ _)) =>
      apply reach_sendTo; [reflexivity|lia]
  | |- reachable _ (snd (readFrom _ _ _ _)) =>
      apply reach_readFrom; [reflexivity|lia]
  end.


(** C7 as stated: an accepted call starts the transaction and yet returns 0,
    the value a rejected call returns. *)
Lemma accepted_call_returns_zero :
  driverState (boot []) = I2C_READY /\
  history (snd (sendTo 0x50 0 0 (boot []))) = [SetTWCR SEND_START_CONDITION_value] /\
  fst (sendTo 0x50 0 0 (boot [])) = 0 /\
  history (snd (readFrom 0x50 0 1 (boot []))) = [SetTWCR SEND_START_CONDITION_value] /\
  fst (readFrom 0x50 0 1 (boot [])) = 0 /\
  ~ reports_acceptance.
Proof.
  repeat split; try reflexivity.
  intros H. destruct (H (boot []) 0x50 0%nat 0) as [Ha _].
  destruct (Ha eq_refl) as [Hs _]. apply Hs. reflexivity.
Qed.


Lemma master_receive_acknowledge_policy_witness :
  let s := boot [0; 0] in
  let evs := receive_events [0xAA; 0xBB] in
  let s' := run evs (snd (readFrom 0x50 0 2 s)) in
  control_writes (transaction s') =
    REQUEST_SEND_WITH_ACK_value :: receive_requests 2
    ++ [SEND_STOP_CONDITION_value; SEND_STOP_CONDITION_value] /\
  map snd (stores (transaction s')) = map snd (drop 2 evs) /\
  dataPointer s' = 2 /\
  driverState s' = I2C_READY.
Proof.
  apply (master_receive_acknowledge_policy (boot [0; 0]) 0x50 0 2
           (receive_events [0xAA; 0xBB])).
  - reflexivity.
  - lia.
  - vm_compute. reflexivity.
  - vm_compute. reflexivity.
  - reflexivity.
Defined.



Lemma arbitration_loss_releases_witness :
  let s := interrupt (MASTER_START_TRANSMISSION_DONE_08, 0)
             (snd (sendTo 0x50 0 3 (boot [1; 2; 3]))) in
  let e := (MASTER_ARBITRATION_LOST_38, 0) in
  lastRequestStatus (interrupt e s) = I2C_LOST_ARBITRATION /\
  history (interrupt e s) = history s ++ [SetTWCR releaseBus_value] /\
  is_stop releaseBus_value = false /\
  stop_conditions (transaction (interrupt e s)) = 0%nat /\
  driverState (interrupt e s) = I2C_READY.
Proof.
  apply (arbitration_loss_releases 1
           (interrupt (MASTER_START_TRANSMISSION_DONE_08, 0)
              (snd (sendTo 0x50 0 3 (boot [1; 2; 3]))))
           (MASTER_ARBITRATION_LOST_38, 0)).
  - reach.
  - vm_compute. reflexivity.
  - reflexivity.
Defined.

Lemma address_nack_asymmetry_witness :
  let s := interrupt (MASTER_START_TRANSMISSION_DONE_08, 0)
             (snd (readFrom 0x50 0 2 failed_send)) in
  let e := (MR_STARTBIT_TRANSMITTED_AND_NO_ACK_RECEIVED_48, 0) in
  history (interrupt e s) =
    history s
    ++ [SetTWCR SEND_STOP_CONDITION_value; SetTWCR SEND_STOP_CONDITION_value] /\
  driverState (interrupt e s) = I2C_READY /\
  lastRequestStatus (interrupt e s) = lastRequestStatus s.
Proof.
  cbv zeta.
  exact (proj1 (address_nack_asymmetry
                  (interrupt (MASTER_START_TRANSMISSION_DONE_08, 0)
                     (snd (readFrom 0x50 0 2 failed_send)))
                  (MR_STARTBIT_TRANSMITTED_AND_NO_ACK_RECEIVED_48, 0))
               eq_refl).
Defined.

Lemma facade_call_witness :
  let t := snd (sendTo 0x50 0 3 (boot [1; 2; 3])) in
  (snd (sendTo 0x51 1 2 t) = t /\ snd (readFrom 0x51 1 2 t) = t) /\
  i2cAddress t = 0xA0 /\
  i2cAddress (snd (readFrom 0x50 0 3 (boot [1; 2; 3]))) = 0xA1.
Proof.
  split.
  - apply (facade_call (snd (sendTo 0x50 0 3 (boot [1; 2; 3]))) 0x51 1 2).
    discriminate.
  - destruct (proj2 (facade_call (boot [1; 2; 3]) 0x50 0 3) eq_refl)
      as ((_ & _ & Ht & _) & (_ & _ & Hr & _) & _).
    split; [exact Ht|exact Hr].
Defined.

Lemma last_error_is_never_cleared_witness :
  lastRequestStatus failed_send = I2C_MISSING_ACK /\
  driverState (run (send_events 3) (snd (sendTo 0x50 0 3 failed_send))) = I2C_READY /\
  lastRequestStatus (run (send_events 3) (snd (sendTo 0x50 0 3 failed_send)))
    = lastRequestStatus failed_send.
Proof.
  split; [vm_compute; reflexivity|]. split; [vm_compute; reflexivity|].
  exact (proj1 (proj2 (proj2
           (last_error_is_never_cleared failed_send 0x50 0 3 (send_events 3)
              eq_refl)))).
Defined.


(** ** Initialisation, shutdown and the statuses without a case *)

Lemma u8_land x : u8 x = Z.land x 255.
Proof. unfold u8. symmetry. apply (Z.land_ones x 8). lia. Qed.

Lemma clear_bits_spec mask r i :
  0 <= i < 8 ->
  Z.testbit (clear_bits mask r) i = Z.testbit r i && negb (Z.testbit mask i).
Proof.
  intros Hi. unfold clear_bits. rewrite u8_land, !Z.land_spec, Z.lnot_spec by lia.
  replace (Z.testbit 255 i) with true; [apply andb_true_r|].
  assert (H : i = 0 \/ i = 1 \/ i = 2 \/ i = 3 \/ i = 4 \/ i = 5 \/ i = 6 \/ i = 7) by lia.
  repeat destruct H as [H|H]; subst i; reflexivity.
Qed.

(** [initialisation] makes the driver idle whatever it was doing, stores the
    enable value into [TWCR] without commanding any bus action, selects
    prescaler 1 while keeping the status bits of [TWSR], and keeps the cursor,
    the length and [lastRequestStatus]; a [sendTo] that follows is accepted. *)
Theorem initialisation_readies F_CPU I2C_SPEED c address data length :
  let s' := core (initialisation F_CPU I2C_SPEED c) in
  (driverState s' = I2C_READY /\
   history s' = history (core c) ++ [SetTWCR ENABLE_I2C_value] /\
   clears_TWINT ENABLE_I2C_value = false /\
   Z.land (TWSR s') 3 = 0 /\
   GET_COMMUNICATION_STATUS s' = GET_COMMUNICATION_STATUS (core c)) /\
  (dataPointer s' = dataPointer (core c) /\
   nbDataToSend s' = nbDataToSend (core c) /\
   lastRequestStatus s' = lastRequestStatus (core c)) /\
  history (snd (sendTo address data length s')) =
    history (core c) ++ [SetTWCR ENABLE_I2C_value; SetTWCR SEND_START_CONDITION_value].
Proof.
  cbv zeta. unfold initialisation, sendTo, SET_I2C_PRESCALER_1, ENABLE_I2C,
    GET_COMMUNICATION_STATUS.
  cbn [core]. sim. rewrite u8_land, <- !Z.land_assoc, <- app_assoc.
  repeat split; try reflexivity.
  change (Z.land 252 (Z.land 255 3)) with 0. apply Z.land_0_r.
Qed.

(** The bit-rate register: when the ratio [F_CPU / I2C_SPEED] lies between
    16 and 527, the value stored into [TWBR] fits the register and the SCL
    divisor [16 + 2 * TWBR] it selects is the ratio or one below it, so the
    bus clock is never slower than [I2C_SPEED]. *)
Theorem bit_rate_register F_CPU I2C_SPEED c :
  0 < I2C_SPEED -> 16 * I2C_SPEED <= F_CPU < 528 * I2C_SPEED ->
  let twbr := TWBR (initialisation F_CPU I2C_SPEED c) in
  twbr = (F_CPU / I2C_SPEED - 16) / 2 /\
  0 <= twbr < 256 /\
  I2C_SPEED * (16 + 2 * twbr) <= F_CPU < I2C_SPEED * (16 + 2 * twbr + 2).
Proof.
  intros Hs Hf. cbv zeta. unfold initialisation, FREQUENCY_REGISTER_VALUE. cbn [TWBR].
  assert (Hq : 16 <= F_CPU / I2C_SPEED < 528)
    by (split; [apply Z.div_le_lower_bound|apply Z.div_lt_upper_bound]; lia).
  rewrite (Z.quot_div_nonneg F_CPU I2C_SPEED) by lia.
  rewrite Z.quot_div_nonneg by lia.
  pose proof (Z.div_mod F_CPU I2C_SPEED ltac:(lia)) as Hd.
  pose proof (Z.mod_pos_bound F_CPU I2C_SPEED Hs) as Hm.
  pose proof (Z.div_mod (F_CPU / I2C_SPEED - 16) 2 ltac:(lia)) as Hd2.
  pose proof (Z.mod_pos_bound (F_CPU / I2C_SPEED - 16) 2 ltac:(lia)) as Hm2.
  rewrite u8_small by lia. split; [reflexivity|]. split; [lia|]. nia.
Qed.

(** At 16 MHz and 100 kHz the register holds 72. *)
Lemma bit_rate_register_witness :
  let twbr := TWBR (initialisation 16000000 100000 (mkChip (boot []) 0 0)) in
  twbr = (16000000 / 100000 - 16) / 2 /\
  0 <= twbr < 256 /\
  100000 * (16 + 2 * twbr) <= 16000000 < 100000 * (16 + 2 * twbr + 2).
Proof. apply (bit_rate_register 16000000 100000 (mkChip (boot []) 0 0)); lia. Defined.

(** The pull-up macro of [initialisation] clears bits [PC4] and [PC5] of
    [PORTC], exactly as the one of [disable] does: after either function the
    two bits are 0 and every other bit is as before. *)
Theorem pullup_bits_are_cleared F_CPU I2C_SPEED c i :
  0 <= i < 8 ->
  Z.testbit (PORTC (initialisation F_CPU I2C_SPEED c)) i =
    (if (i =? PC4) || (i =? PC5) then false else Z.testbit (PORTC c) i) /\
  PORTC (disable c) = PORTC (initialisation F_CPU I2C_SPEED c).
Proof.
  intros Hi. split; [|reflexivity].
  unfold initialisation, SET_PULLUP_SDA_SCL. cbn [PORTC].
  rewrite clear_bits_spec by exact Hi.
  generalize (Z.testbit (PORTC c) i). intros b.
  assert (H : i = 0 \/ i = 1 \/ i = 2 \/ i = 3 \/ i = 4 \/ i = 5 \/ i = 6 \/ i = 7) by lia.
  repeat destruct H as [H|H]; subst i; destruct b; reflexivity.
Qed.

(** Bit [PC4] of a port that had all six pins high. *)
Lemma pullup_bits_are_cleared_witness :
  Z.testbit (PORTC (initialisation 16000000 100000 (mkChip (boot []) 0x3F 0))) 4 =
    (if (4 =? PC4) || (4 =? PC5) then false
     else Z.testbit (PORTC (mkChip (boot []) 0x3F 0)) 4) /\
  PORTC (disable (mkChip (boot []) 0x3F 0)) =
    PORTC (initialisation 16000000 100000 (mkChip (boot []) 0x3F 0)).
Proof. apply (pullup_bits_are_cleared 16000000 100000 (mkChip (boot []) 0x3F 0) 4); lia. Defined.

(** [disable] clears [TWEN], [TWIE] and [TWEA] in [TWCR] and keeps its other
    bits; it does not touch [driverState], so a driver disabled in the middle
    of a transaction stays busy and drops the calls that follow. *)
Theorem disable_keeps_driver_state c address data length i :
  0 <= i < 8 ->
  Z.testbit (TWCR (core (disable c))) i =
    (if (i =? TWEN) || (i =? TWIE) || (i =? TWEA) then false
     else Z.testbit (TWCR (core c)) i) /\
  driverState (core (disable c)) = driverState (core c) /\
  (driverState (core c) <> I2C_READY ->
   snd (sendTo address data length (core (disable c))) = core (disable c) /\
   snd (readFrom address data length (core (disable c))) = core (disable c)).
Proof.
  intros Hi. unfold disable. cbn [core]. sim. split; [|split; [reflexivity|]].
  - rewrite clear_bits_spec by exact Hi.
    generalize (Z.testbit (TWCR (core c)) i). intros b.
    assert (H : i = 0 \/ i = 1 \/ i = 2 \/ i = 3 \/ i = 4 \/ i = 5 \/ i = 6 \/ i = 7) by lia.
    repeat destruct H as [H|H]; subst i; destruct b; reflexivity.
  - intros Hb. split; [apply sendTo_busy|apply readFrom_busy]; sim; exact Hb.
Qed.

(** [disable] right after a [sendTo]: the driver stays in
    [I2C_MASTER_TRANSMIT]. *)
Lemma disable_keeps_driver_state_witness :
  driverState (core (disable (mkChip (snd (sendTo 0x50 0 3 (boot [1; 2; 3]))) 0 0))) =
    I2C_MASTER_TRANSMIT.
Proof.
  pose proof (disable_keeps_driver_state
                (mkChip (snd (sendTo 0x50 0 3 (boot [1; 2; 3]))) 0 0) 0x50 0%nat 3 2
                ltac:(lia)) as (_ & H & _).
  exact H.
Defined.

(** A status code without a [case] changes nothing and commands nothing; the
    code [0xF8] only sets the driver idle, without any bus command. *)
Theorem unhandled_status_is_ignored s :
  (~ In (GET_COMMUNICATION_STATUS s) handled_status -> ISR s = s) /\
  (GET_COMMUNICATION_STATUS s = COMMON_NO_INFO_F8 ->
   ISR s = set_driverState I2C_READY s).
Proof.
  split.
  - intros H. unfold ISR. generalize dependent (GET_COMMUNICATION_STATUS s). intros st H.
    cbn [In handled_status] in H.
    repeat match goal with
           | |- context [st =? ?c] =>
               replace (st =? c) with false
                 by (symmetry; apply Z.eqb_neq; intros E; apply H; rewrite E; tauto)
           end.
    reflexivity.
  - intros H. unfold ISR. rewrite H. reflexivity.
Qed.

(** The slave status [0x60] in the master build. *)
Lemma unhandled_status_is_ignored_witness :
  ISR (set_TWSR 0x60 (boot [])) = set_TWSR 0x60 (boot []).
Proof.
  apply (proj1 (unhandled_status_is_ignored (set_TWSR 0x60 (boot [])))).
  vm_compute. lia.
Defined.

(** The interrupt routine dispatches on the status code alone: it never reads
    [typeOfCommunication] and never writes it. *)
Theorem dispatch_ignores_kind t s :
  ISR (set_typeOfCommunication t s) = set_typeOfCommunication t (ISR s).
Proof.
  unfold ISR, GET_COMMUNICATION_STATUS. destruct s. sim.
  repeat match goal with
         | |- context [if ?c then _ else _] => destruct c
         end; reflexivity.
Qed.

(** The facade keeps seven bits of the address: an address and the same
    address plus 128 start the same transaction. *)
Theorem address_is_taken_modulo_128 s address data length :
  sendTo (address + 128) data length s = sendTo address data length s /\
  readFrom (address + 128) data length s = readFrom address data length s.
Proof.
  assert (H : forall k, u8 (Z.shiftl (address + 128) 1 + k) = u8 (Z.shiftl address 1 + k)).
  { intros k. unfold u8. rewrite !Z.shiftl_mul_pow2 by lia. change (2 ^ 1) with 2.
    replace ((address + 128) * 2 + k) with (address * 2 + k + 1 * 256) by lia.
    apply Z.mod_add. lia. }
  unfold sendTo, readFrom. rewrite (H 1). pose proof (H 0) as H0.
  rewrite !Z.add_0_r in H0. rewrite H0. split; reflexivity.
Qed.

(** ** Transactions that end early, and the memory a read writes *)

Lemma master_run_app evs1 evs2 s : run (evs1 ++ evs2) s = run evs2 (run evs1 s).
Proof. revert s. induction evs1 as [|e evs1 IH]; intros s; [reflexivity|apply IH]. Qed.

Lemma master_run_cons e evs s : run (e :: evs) s = run evs (interrupt e s).
Proof. reflexivity. Qed.

Lemma conformant_cons e evs s :
  conformant s (e :: evs) =
  twi_may_raise s (status_of e) && conformant (interrupt e s) evs.
Proof. reflexivity. Qed.

Lemma refused_loop (n : nat) : forall s,
  0 <= dataPointer s -> dataPointer s + Z.of_nat n <= nbDataToSend s ->
  nbDataToSend s < 256 ->
  TWCR s = REQUEST_SEND_WITH_ACK_value ->
  one_of [MS_STARTBIT_TRANSMITTED_AND_ACK_RECEIVED_18;
          MS_DATA_TRANSMITTED_ACK_RECEIVED_28]
         (GET_COMMUNICATION_STATUS s) = true ->
  (i2cBuffer s + Z.to_nat (nbDataToSend s) <= length (ram s))%nat ->
  let evs := replicate n (MS_DATA_TRANSMITTED_ACK_RECEIVED_28, 0)
             ++ [(MS_DATA_TRANSMITTED_NO_ACK_RECEIVED_30, 0)] in
  conformant s evs = true /\
  driverState (run evs s) = I2C_READY /\
  history (run evs s) =
    history s
    ++ sent (take n (drop (i2cBuffer s + Z.to_nat (dataPointer s)) (ram s)))
    ++ [SetTWCR SEND_STOP_CONDITION_value; SetTWCR SEND_STOP_CONDITION_value] /\
  dataPointer (run evs s) = dataPointer s + Z.of_nat n /\
  lastRequestStatus (run evs s) = I2C_MISSING_ACK /\
  ram (run evs s) = ram s.
Proof.
  induction n as [|n IH]; intros s Hdp Hn Hlen Hcr Hprev Hbuf; cbv zeta;
    cbn [replicate app]; rewrite conformant_cons, master_run_cons.
  - assert (Hm : twi_may_raise s (status_of (MS_DATA_TRANSMITTED_NO_ACK_RECEIVED_30, 0)) = true).
    { unfold twi_may_raise, GET_COMMUNICATION_STATUS in *. rewrite Hcr. hist.
      cases_of Hprev; rewrite Hprev; reflexivity. }
    rewrite Hm. rewrite interrupt_MS_nack by (right; reflexivity).
    cbn [conformant run andb]. sim. rewrite <- !app_assoc.
    repeat split; try reflexivity. lia.
  - assert (Hm : twi_may_raise s (status_of (MS_DATA_TRANSMITTED_ACK_RECEIVED_28, 0)) = true).
    { unfold twi_may_raise, GET_COMMUNICATION_STATUS in *. rewrite Hcr. hist.
      cases_of Hprev; rewrite Hprev; reflexivity. }
    rewrite Hm. rewrite interrupt_MS_ack by (right; reflexivity). cbv zeta. sim.
    destruct (Z.ltb_spec (dataPointer s) (nbDataToSend s)) as [Hlt|Hge]; [|lia].
    rewrite u8_small by lia.
    match goal with |- context [conformant ?s1 _] => set (s' := s1) end.
    destruct (IH s') as (Hc & Hd & Hh & Hp & He & Hr); subst s'; sim;
      try assumption; try lia; try reflexivity.
    cbv zeta in Hc, Hd, Hh, Hp, He, Hr.
    rewrite Hc, Hd, Hh, Hp, He, Hr. cbn [andb].
    repeat split; try reflexivity; try lia.
    replace (Z.to_nat (dataPointer s + 1)) with (S (Z.to_nat (dataPointer s))) by lia.
    rewrite Nat.add_succ_r.
    assert (Hin : (i2cBuffer s + Z.to_nat (dataPointer s) < length (ram s))%nat) by lia.
    apply lookup_lt_is_Some_2 in Hin as [b Hb].
    rewrite (drop_S _ _ _ Hb). unfold load. sim. rewrite Hb.
    cbn [take sent flat_map default option_rect app]. unfold sent.
    rewrite <- !app_assoc. reflexivity.
Qed.

Lemma may_raise_start_send s a p l :
  driverState s = I2C_READY ->
  twi_may_raise (snd (sendTo a p l s)) MASTER_START_TRANSMISSION_DONE_08 = true.
Proof. intros Hr. unfold sendTo, twi_may_raise. rewrite Hr. sim. hist. reflexivity. Qed.

Lemma may_raise_start_read s a p l :
  driverState s = I2C_READY ->
  twi_may_raise (snd (readFrom a p l s)) MASTER_START_TRANSMISSION_DONE_08 = true.
Proof. intros Hr. unfold readFrom, twi_may_raise. rewrite Hr. sim. hist. reflexivity. Qed.

(** A send in which the peer acknowledges the address and [acked] data bytes
    and refuses the next one: the driver has handed exactly [acked + 1] bytes
    to the bus, in order, sends no further byte, runs
    [SEND_STOP_CONDITION()] (two stores of the stop command into [TWCR]),
    records [I2C_MISSING_ACK] and is idle with the cursor at [acked + 1]. *)
Theorem refused_byte_ends_send s address data length acked :
  driverState s = I2C_READY -> Z.of_nat acked < length < 256 ->
  (data + Z.to_nat length <= List.length (ram s))%nat ->
  let evs := refused_send_events acked in
  let s' := run evs (snd (sendTo address data length s)) in
  conformant (snd (sendTo address data length s)) evs = true /\
  history s' =
    history s
    ++ [SetTWCR SEND_START_CONDITION_value; SetTWDR (u8 (Z.shiftl address 1));
        SetTWCR REQUEST_SEND_WITH_ACK_value]
    ++ sent (buffer_bytes data (Z.of_nat acked + 1) s)
    ++ [SetTWCR SEND_STOP_CONDITION_value; SetTWCR SEND_STOP_CONDITION_value] /\
  dataPointer s' = Z.of_nat acked + 1 /\
  lastRequestStatus s' = I2C_MISSING_ACK /\
  driverState s' = I2C_READY.
Proof.
  intros Hr Hl Hbuf. cbv zeta. unfold refused_send_events.
  rewrite !conformant_cons, !master_run_cons.
  pose proof (may_raise_start_send s address data length Hr) as Hm1.
  change MASTER_START_TRANSMISSION_DONE_08
    with (status_of (MASTER_START_TRANSMISSION_DONE_08, 0)) in Hm1.
  rewrite Hm1.
  destruct (sendTo_started s address data length _ Hr Hm1 eq_refl)
    as ((Hds & Hcr & Hprev & Hbit) & (Hdp & Hnb & Hbuf' & Hram & Herr) & Hh).
  revert Hds Hcr Hprev Hbit Hdp Hnb Hbuf' Hram Herr Hh.
  generalize (interrupt (MASTER_START_TRANSMISSION_DONE_08, 0)
                (snd (sendTo address data length s))).
  intros s2 Hds Hcr Hprev Hbit Hdp Hnb Hbuf' Hram Herr Hh.
  assert (Hm2 : twi_may_raise s2
                  (status_of (MS_STARTBIT_TRANSMITTED_AND_ACK_RECEIVED_18, 0)) = true)
    by (unfold twi_may_raise; rewrite Hcr, Hprev, Hbit; reflexivity).
  rewrite Hm2. cbn [andb].
  rewrite interrupt_MS_ack by (left; reflexivity). cbv zeta. sim.
  rewrite Hdp, Hnb. destruct (Z.ltb_spec 0 length) as [_|Hge]; [|lia].
  change (u8 (0 + 1)) with 1.
  match goal with |- context [conformant ?s1 _] => set (s3 := s1) end.
  destruct (refused_loop acked s3) as (Hc & Hd & Hh3 & Hp & He & _); subst s3; sim;
    [rewrite ?Hdp, ?Hnb, ?Hbuf', ?Hram; first [assumption|lia|reflexivity]..|].
  cbv zeta in Hc, Hd, Hh3, Hp, He. sim.
  rewrite Hc, Hd, Hh3, Hp, He, Hh.
  repeat split; try reflexivity; [|lia].
  unfold buffer_bytes.
  replace (Z.to_nat (Z.of_nat acked + 1)) with (S acked) by lia.
  assert (Hin : (data < List.length (ram s))%nat) by lia.
  apply lookup_lt_is_Some_2 in Hin as [b Hb].
  rewrite (drop_S _ _ _ Hb). unfold load. sim. rewrite Hram, Hbuf'.
  change (Z.to_nat 0) with 0%nat. change (Z.to_nat 1) with 1%nat.
  rewrite Nat.add_0_r, Nat.add_1_r, Hb.
  cbn [take sent flat_map default option_rect app]. unfold sent.
  rewrite <- !app_assoc. reflexivity.
Qed.

(** Three bytes of which the peer refuses the second. *)
Lemma refused_byte_ends_send_witness :
  let s' := run (refused_send_events 1) (snd (sendTo 0x50 0 3 (boot [1; 2; 3]))) in
  dataPointer s' = 2 /\ lastRequestStatus s' = I2C_MISSING_ACK /\
  driverState s' = I2C_READY.
Proof.
  cbv zeta.
  pose proof (refused_byte_ends_send (boot [1; 2; 3]) 0x50 0%nat 3 1%nat eq_refl
                ltac:(lia) ltac:(cbn; lia)) as H.
  cbv zeta in H. destruct H as (_ & _ & Hp & He & Hd).
  split; [exact Hp|split; [exact He|exact Hd]].
Defined.

Lemma receive_data_memory bytes : forall s,
  bytes <> [] -> 0 <= dataPointer s ->
  dataPointer s + Z.of_nat (length bytes) <= 255 ->
  (masterReceivedBuffer s + Z.to_nat (dataPointer s) + length bytes
   <= length (ram s))%nat ->
  let k := (masterReceivedBuffer s + Z.to_nat (dataPointer s))%nat in
  ram (run (data_events bytes) s) =
    take k (ram s) ++ bytes ++ drop (k + length bytes) (ram s) /\
  dataPointer (run (data_events bytes) s) = dataPointer s + Z.of_nat (length bytes) /\
  driverState (run (data_events bytes) s) = I2C_READY /\
  lastRequestStatus (run (data_events bytes) s) = lastRequestStatus s.
Proof.
  induction bytes as [|b [|b' bytes] IH]; intros s Hne Hdp Hlen Hbuf; [congruence| |].
  - cbn [data_events length] in *. rewrite master_run_cons.
    rewrite interrupt_MR_data_nack by reflexivity. cbv zeta. cbn [run]. sim.
    rewrite u8_small by lia. repeat split; try reflexivity.
    rewrite Nat.add_1_r. apply insert_take_drop. lia.
  - change (data_events (b :: b' :: bytes))
      with ((MR_DATA_RECEIVED_ACK_RETURN_50, b) :: data_events (b' :: bytes)).
    rewrite master_run_cons. cbn [length] in Hlen, Hbuf.
    rewrite interrupt_MR_data_ack by reflexivity. cbv zeta. sim.
    rewrite u8_small by lia.
    match goal with |- context [run _ ?s1] => set (s' := s1) end.
    assert (Hs : masterReceivedBuffer s' = masterReceivedBuffer s /\
                 dataPointer s' = dataPointer s + 1 /\
                 lastRequestStatus s' = lastRequestStatus s /\
                 ram s' = <[(masterReceivedBuffer s + Z.to_nat (dataPointer s))%nat := b]>
                            (ram s))
      by (subst s'; split_ltb; sim; repeat split; reflexivity).
    destruct Hs as (Hmrb & Hdp' & Herr & Hram).
    destruct (IH s') as (Hr & Hp & Hd & He); [congruence|lia|cbn [length]; lia| |].
    { rewrite Hmrb, Hdp', Hram, length_insert. cbn [length]. lia. }
    clearbody s'. cbv zeta in Hr. rewrite Hr, Hp, Hd, He, Hmrb, Hdp', Herr, Hram.
    cbn [length]. repeat split; try reflexivity; [|lia].
    replace (Z.to_nat (dataPointer s + 1)) with (S (Z.to_nat (dataPointer s))) by lia.
    rewrite Nat.add_succ_r.
    set (k := (masterReceivedBuffer s + Z.to_nat (dataPointer s))%nat) in *.
    rewrite (take_S_r _ k b) by (apply list_lookup_insert_eq; lia).
    rewrite take_insert_ge, drop_insert_lt by lia.
    rewrite <- app_assoc. cbn [app]. rewrite Nat.add_succ_r.
    replace (k + S (S (length bytes)))%nat with (S (S k + length bytes)) by lia.
    reflexivity.
Qed.

Lemma read_prefix_memory s a p l :
  driverState s = I2C_READY ->
  let s3 := run [(MASTER_START_TRANSMISSION_DONE_08, 0);
                 (MR_STARTBIT_TRANSMITED_AND_ACK_RECEIVED_40, 0)]
                (snd (readFrom a p l s)) in
  masterReceivedBuffer s3 = p /\ ram s3 = ram s /\ dataPointer s3 = 0 /\
  nbDataToSend s3 = l /\ lastRequestStatus s3 = lastRequestStatus s /\
  history s3 =
    history s
    ++ [SetTWCR SEND_START_CONDITION_value; SetTWDR (u8 (Z.shiftl a 1 + 1));
        SetTWCR REQUEST_SEND_WITH_ACK_value;
        SetTWCR (if 0 <? l - 1 then REQUEST_SEND_WITH_ACK_value
                 else REQUEST_SEND_WITHOUT_ACK_value)].
Proof.
  intros Hr. cbv zeta. unfold readFrom. rewrite Hr. sim.
  rewrite !master_run_cons. cbn [run].
  rewrite (interrupt_start (MASTER_START_TRANSMISSION_DONE_08, 0)) by (left; reflexivity).
  rewrite (interrupt_MR_address_ack (MR_STARTBIT_TRANSMITED_AND_ACK_RECEIVED_40, 0))
    by reflexivity. cbv zeta. sim.
  destruct (0 <? l - 1); sim; rewrite <- !app_assoc; repeat split; reflexivity.
Qed.

(** A read of the bytes [bytes] (1 to 255 of them) into a buffer that holds
    them: the events of the transaction are conformant, the driver ends idle
    with the cursor at the length, the buffer holds the bytes in the order in
    which the peer delivered them, and no other memory cell has changed. *)
Theorem read_fills_buffer s address data bytes :
  driverState s = I2C_READY -> (1 <= List.length bytes < 256)%nat ->
  (data + List.length bytes <= List.length (ram s))%nat ->
  let l := Z.of_nat (List.length bytes) in
  let s' := run (receive_events bytes) (snd (readFrom address data l s)) in
  conformant (snd (readFrom address data l s)) (receive_events bytes) = true /\
  ram s' = take data (ram s) ++ bytes ++ drop (data + List.length bytes) (ram s) /\
  dataPointer s' = l /\
  driverState s' = I2C_READY /\
  lastRequestStatus s' = lastRequestStatus s.
Proof.
  intros Hr Hl Hbuf. cbv zeta.
  split; [apply (receive_events_conformant s address data bytes Hr Hl)|].
  unfold receive_events.
  change (?e1 :: ?e2 :: data_events bytes) with ([e1; e2] ++ data_events bytes).
  rewrite master_run_app.
  destruct (read_prefix_memory s address data (Z.of_nat (List.length bytes)) Hr)
    as (Hmrb & Hram & Hdp & Hnb & Herr & _).
  revert Hmrb Hram Hdp Hnb Herr.
  match goal with |- context [run (data_events bytes) ?s3] => generalize s3 end.
  intros s3 Hmrb Hram Hdp Hnb Herr.
  destruct (receive_data_memory bytes s3) as (Hr' & Hp & Hd & He).
  - intros ->. cbn [List.length] in Hl. lia.
  - lia.
  - lia.
  - rewrite Hmrb, Hdp, Hram. change (Z.to_nat 0) with 0%nat. lia.
  - cbv zeta in Hr'. rewrite Hr', Hp, Hd, He, Hmrb, Hdp, Hram, Herr.
    change (Z.to_nat 0) with 0%nat. rewrite Nat.add_0_r.
    repeat split; reflexivity.
Qed.

(** Two bytes read into the middle of a four-byte memory. *)
Lemma read_fills_buffer_witness :
  ram (run (receive_events [7; 8]) (snd (readFrom 0x50 1 2 (boot [0; 0; 0; 0])))) =
    [0; 7; 8; 0].
Proof.
  pose proof (read_fills_buffer (boot [0; 0; 0; 0]) 0x50 1%nat [7; 8] eq_refl
                ltac:(cbn; lia) ltac:(cbn; lia)) as H.
  cbv zeta in H. destruct H as (_ & H & _). exact H.
Defined.

(** A read of zero bytes still takes one byte from the peer and stores it at
    [buffer[0]]: the events are conformant, one memory cell is written
    although no byte was asked for, and the cursor ends at 1. *)
Theorem empty_read_stores_a_byte s address data b :
  driverState s = I2C_READY ->
  let s' := run (empty_read_events b) (snd (readFrom address data 0 s)) in
  conformant (snd (readFrom address data 0 s)) (empty_read_events b) = true /\
  ram s' = <[data := b]> (ram s) /\
  stores (transaction s') = [(data, b)] /\
  dataPointer s' = 1 /\ nbDataToSend s' = 0 /\
  driverState s' = I2C_READY.
Proof.
  intros Hr. cbv zeta. unfold empty_read_events, readFrom. rewrite Hr. sim.
  rewrite !conformant_cons, !master_run_cons. cbn [conformant run].
  rewrite (interrupt_start (MASTER_START_TRANSMISSION_DONE_08, 0)) by (left; reflexivity).
  rewrite (interrupt_MR_address_ack (MR_STARTBIT_TRANSMITED_AND_ACK_RECEIVED_40, 0))
    by reflexivity. cbv zeta. sim.
  change (0 <? 0 - 1) with false. cbv iota.
  rewrite interrupt_MR_data_nack by reflexivity. cbv zeta. sim.
  unfold twi_may_raise, GET_COMMUNICATION_STATUS, transaction. sim. hist.
  rewrite shifted_address_odd. change (Z.to_nat 0) with 0%nat. rewrite ?Nat.add_0_r.
  split; [vm_compute; reflexivity|]. repeat split; reflexivity.
Qed.

(** A read of zero bytes writes the byte 9 into the first cell. *)
Lemma empty_read_stores_a_byte_witness :
  ram (run (empty_read_events 9) (snd (readFrom 0x50 0 0 (boot [0; 0])))) = [9; 0].
Proof.
  pose proof (empty_read_stores_a_byte (boot [0; 0]) 0x50 0%nat 9 eq_refl) as H.
  cbv zeta in H. destruct H as (_ & H & _). exact H.
Defined.

(** An acknowledged send of any length runs to its end: the events of an
    acknowledging peer are conformant, the driver ends idle with the cursor
    at the length, and neither the memory nor [lastRequestStatus] has
    changed. *)
Theorem acknowledged_send_completes s address data length :
  driverState s = I2C_READY -> 0 <= length < 256 ->
  (data + Z.to_nat length <= List.length (ram s))%nat ->
  let s' := run (send_events length) (snd (sendTo address data length s)) in
  conformant (snd (sendTo address data length s)) (send_events length) = true /\
  driverState s' = I2C_READY /\
  dataPointer s' = length /\
  ram s' = ram s /\
  lastRequestStatus s' = lastRequestStatus s.
Proof.
  intros Hr Hl Hbuf. cbv zeta.
  destruct (send_events_conformant s address data length Hr Hl) as (Hc & Ha & Hn).
  destruct (master_send_run s address data length _ Hr Hl Hbuf Hc Ha Hn)
    as (Hd & _ & Hp & Hram & Herr).
  repeat split; assumption.
Qed.

(** Three acknowledged bytes. *)
Lemma acknowledged_send_completes_witness :
  let s' := run (send_events 3) (snd (sendTo 0x50 0 3 (boot [1; 2; 3]))) in
  driverState s' = I2C_READY /\ dataPointer s' = 3.
Proof.
  cbv zeta.
  pose proof (acknowledged_send_completes (boot [1; 2; 3]) 0x50 0%nat 3 eq_refl
                ltac:(lia) ltac:(cbn; lia)) as H.
  cbv zeta in H. destruct H as (_ & Hd & Hp & _). split; [exact Hd|exact Hp].
Defined.

End MasterProofs.

(** ** The slave variant *)

Module SlaveProofs.
Import Slave.

#[local] Arguments u8 : simpl never.

Ltac sim :=
  cbn [TWCR TWDR TWSR typeOfCommunication driverState slaveDataPointer
       slaveBuffer overrun slaveTransmitBuffer nbByteToTransmit
       slaveTransmitCallBack slaveReceiveCallBack lastRequestStatus history
       set_TWCR set_TWDR set_TWSR set_typeOfCommunication set_driverState
       set_slaveDataPointer set_slaveBuffer set_slaveTransmitBuffer
       set_nbByteToTransmit set_slaveTransmitCallBack set_slaveReceiveCallBack
       set_lastRequestStatus record write_TWCR write_TWDR
       ENABLE_I2C SEND_STOP_CONDITION REQUEST_SEND_WITH_ACK
       REQUEST_SEND_WITHOUT_ACK twi_releaseBus setSlaveReceivedCallback
       fst snd] in *.

(** ** The interrupt routine on the events of a write transaction *)

Lemma interrupt_addressed d s :
  interrupt (SR_START_TRANSMISSION_RECEIVED_60, d) s =
  REQUEST_SEND_WITH_ACK
    (set_slaveDataPointer 0
       (set_driverState I2C_SLAVE_RECEIVE
          (set_typeOfCommunication SLAVE_RECEIVED
             (set_TWSR SR_START_TRANSMISSION_RECEIVED_60 s)))).
Proof. reflexivity. Qed.

Lemma interrupt_data b s :
  interrupt (SR_DATA_RECEIVED_ACK_RETURN_80, b) s =
  let s := set_TWDR b (set_TWSR SR_DATA_RECEIVED_ACK_RETURN_80 s) in
  let s := store_slaveBuffer (slaveDataPointer s) (TWDR s) s in
  REQUEST_SEND_WITH_ACK (set_slaveDataPointer (u8 (slaveDataPointer s + 1)) s).
Proof. reflexivity. Qed.

Lemma interrupt_stop d s :
  interrupt (SR_STOP_RECEIVED, d) s =
  let s := set_TWSR SR_STOP_RECEIVED s in
  set_driverState I2C_READY
    (twi_releaseBus
       (ENABLE_I2C
          (record (CallReceive (slaveReceiveCallBack s) (slaveBuffer s)
                               (slaveDataPointer s)) s))).
Proof. reflexivity. Qed.

Lemma run_app evs1 evs2 s : run (evs1 ++ evs2) s = run evs2 (run evs1 s).
Proof. revert s. induction evs1 as [|e evs1 IH]; intros s; [reflexivity|apply IH]. Qed.

(** Every data byte is answered with acknowledge and moves the cursor on. *)
Lemma data_loop bytes : forall s k,
  slaveDataPointer s = Z.of_nat k -> (k + length bytes < 256)%nat ->
  slaveDataPointer (run (data_received bytes) s) = Z.of_nat (k + length bytes) /\
  history (run (data_received bytes) s) =
    history s ++ replicate (length bytes) (SetTWCR REQUEST_SEND_WITH_ACK_value) /\
  slaveReceiveCallBack (run (data_received bytes) s) = slaveReceiveCallBack s /\
  length (slaveBuffer (run (data_received bytes) s)) = length (slaveBuffer s).
Proof.
  induction bytes as [|b bytes IH]; intros s k Hk Hlen; cbn [data_received map run length] in *.
  - rewrite Nat.add_0_r, app_nil_r. repeat split; assumption.
  - rewrite interrupt_data. cbv zeta. fold (data_received bytes).
    match goal with |- context [run _ ?s1] => set (s' := s1) end.
    destruct (IH s' (S k)) as (Hp & Hh & Hcb & Hl).
    + subst s'. sim. unfold store_slaveBuffer.
      destruct (_ <? _)%nat; sim; rewrite Hk, u8_small; lia.
    + lia.
    + rewrite Hp, Hh, Hcb, Hl. subst s'. sim. unfold store_slaveBuffer.
      destruct (_ <? _)%nat; sim; rewrite ?length_insert, <- ?app_assoc;
        (repeat split; [f_equal; lia|reflexivity..]).
Qed.

(** Bytes that fit are stored in place. *)
Lemma data_loop_inside bytes : forall s k,
  slaveDataPointer s = Z.of_nat k ->
  (k + length bytes <= length (slaveBuffer s))%nat -> (k + length bytes < 256)%nat ->
  slaveBuffer (run (data_received bytes) s) =
    take k (slaveBuffer s) ++ bytes ++ drop (k + length bytes) (slaveBuffer s) /\
  overrun (run (data_received bytes) s) = overrun s.
Proof.
  induction bytes as [|b bytes IH]; intros s k Hk Hfit Hlen;
    cbn [data_received map run length] in *.
  - cbn [app]. rewrite Nat.add_0_r, take_drop. split; reflexivity.
  - rewrite interrupt_data. cbv zeta. fold (data_received bytes).
    match goal with |- context [run _ ?s1] => set (s' := s1) end.
    assert (Hin : (Z.to_nat (Z.of_nat k) <? length (slaveBuffer s))%nat = true)
      by (apply Nat.ltb_lt; lia).
    assert (Hb : slaveBuffer s' = <[k := b]> (slaveBuffer s))
      by (subst s'; sim; unfold store_slaveBuffer; sim; rewrite Hk, Hin; sim;
          rewrite Nat2Z.id; reflexivity).
    assert (Ho : overrun s' = overrun s)
      by (subst s'; sim; unfold store_slaveBuffer; sim; rewrite Hk, Hin; reflexivity).
    assert (Hp : slaveDataPointer s' = Z.of_nat (S k))
      by (subst s'; sim; unfold store_slaveBuffer; sim; rewrite Hk, Hin; sim;
          rewrite u8_small; lia).
    destruct (IH s' (S k) Hp) as (Hbuf & Hov).
    + rewrite Hb, length_insert. lia.
    + lia.
    + rewrite Hbuf, Hov, Ho, Hb. split; [|reflexivity].
      rewrite (take_S_r _ k b) by (apply list_lookup_insert_eq; lia).
      rewrite take_insert_ge, drop_insert_lt by lia.
      rewrite <- app_assoc. cbn [app]. rewrite Nat.add_succ_r. reflexivity.
Qed.

(** Bytes past the end of the array are stored past the end of the array. *)
Lemma data_loop_outside bytes : forall s k,
  slaveDataPointer s = Z.of_nat k ->
  (length (slaveBuffer s) <= k)%nat -> (k + length bytes < 256)%nat ->
  slaveBuffer (run (data_received bytes) s) = slaveBuffer s /\
  overrun (run (data_received bytes) s) =
    overrun s ++ imap (fun i b => ((k + i)%nat, b)) bytes.
Proof.
  induction bytes as [|b bytes IH]; intros s k Hk Hout Hlen;
    cbn [data_received map run length] in *.
  - rewrite app_nil_r. split; reflexivity.
  - rewrite interrupt_data. cbv zeta. fold (data_received bytes).
    match goal with |- context [run _ ?s1] => set (s' := s1) end.
    assert (Hin : (Z.to_nat (Z.of_nat k) <? length (slaveBuffer s))%nat = false)
      by (apply Nat.ltb_ge; lia).
    assert (Hb : slaveBuffer s' = slaveBuffer s)
      by (subst s'; sim; unfold store_slaveBuffer; sim; rewrite Hk, Hin; reflexivity).
    assert (Ho : overrun s' = overrun s ++ [(k, b)])
      by (subst s'; sim; unfold store_slaveBuffer; sim; rewrite Hk, Hin; sim;
          rewrite Nat2Z.id; reflexivity).
    assert (Hp : slaveDataPointer s' = Z.of_nat (S k))
      by (subst s'; sim; unfold store_slaveBuffer; sim; rewrite Hk, Hin; sim;
          rewrite u8_small; lia).
    destruct (IH s' (S k) Hp) as (Hbuf & Hov).
    + rewrite Hb. lia.
    + lia.
    + rewrite Hbuf, Hov, Ho, Hb, <- app_assoc. split; [reflexivity|].
      rewrite imap_cons. cbn [app]. rewrite Nat.add_0_r. do 2 f_equal.
      apply imap_ext. intros i x _. cbn. f_equal. lia.
Qed.

Lemma data_received_app a b :
  data_received (a ++ b) = data_received a ++ data_received b.
Proof. apply map_app. Qed.

Lemma addressed_state I2C_BUFFER_SIZE f :
  let s := interrupt (SR_START_TRANSMISSION_RECEIVED_60, 0)
             (setSlaveReceivedCallback f (boot I2C_BUFFER_SIZE)) in
  slaveDataPointer s = Z.of_nat 0 /\
  history s = [SetTWCR REQUEST_SEND_WITH_ACK_value] /\
  slaveReceiveCallBack s = Some f /\
  slaveBuffer s = replicate I2C_BUFFER_SIZE 0 /\
  overrun s = [].
Proof. repeat split; reflexivity. Qed.

Lemma run_cons e evs s : run (e :: evs) s = run evs (interrupt e s).
Proof. reflexivity. Qed.

Lemma run_one e s : run [e] s = interrupt e s.
Proof. reflexivity. Qed.

Lemma receive_from_addressed I2C_BUFFER_SIZE f inside outside s1 :
  slaveDataPointer s1 = Z.of_nat 0 ->
  history s1 = [SetTWCR REQUEST_SEND_WITH_ACK_value] ->
  slaveReceiveCallBack s1 = Some f ->
  slaveBuffer s1 = replicate I2C_BUFFER_SIZE 0 ->
  overrun s1 = [] ->
  length inside = I2C_BUFFER_SIZE -> (length inside + length outside < 256)%nat ->
  let s := interrupt (SR_STOP_RECEIVED, 0)
             (run (data_received outside) (run (data_received inside) s1)) in
  history s =
    replicate (S (length inside + length outside)) (SetTWCR REQUEST_SEND_WITH_ACK_value)
    ++ [CallReceive (Some f) inside (Z.of_nat (length inside + length outside));
        SetTWCR ENABLE_I2C_value; SetTWCR releaseBus_value] /\
  slaveBuffer s = inside /\
  overrun s = imap (fun i b => ((I2C_BUFFER_SIZE + i)%nat, b)) outside /\
  driverState s = I2C_READY.
Proof.
  intros Hp1 Hh1 Hc1 Hb1 Ho1 Hin Hlen. cbv zeta.
  destruct (data_loop inside s1 0 Hp1) as (Hp2 & Hh2 & Hc2 & Hl2); [lia|].
  destruct (data_loop_inside inside s1 0 Hp1) as (Hb2 & Ho2);
    [rewrite Hb1, length_replicate; lia|lia|].
  revert Hp2 Hh2 Hc2 Hl2 Hb2 Ho2.
  generalize (run (data_received inside) s1).
  intros s2 Hp2 Hh2 Hc2 Hl2 Hb2 Ho2.
  rewrite Hb1, length_replicate in Hl2.
  rewrite Hb1, take_0, Hin, drop_replicate, Nat.sub_diag in Hb2.
  cbn [app replicate Nat.add] in Hb2, Hp2. rewrite app_nil_r in Hb2.
  rewrite Hin in Hp2.
  destruct (data_loop outside s2 _ Hp2) as (Hp3 & Hh3 & Hc3 & Hl3); [lia|].
  destruct (data_loop_outside outside s2 _ Hp2) as (Hb3 & Ho3); [lia|lia|].
  revert Hp3 Hh3 Hc3 Hl3 Hb3 Ho3.
  generalize (run (data_received outside) s2).
  intros s3 Hp3 Hh3 Hc3 Hl3 Hb3 Ho3.
  rewrite interrupt_stop. cbv zeta. sim.
  rewrite Hh3, Hh2, Hh1, Hc3, Hc2, Hc1, Hb3, Hb2, Hp3, Ho3, Ho2, Ho1, Hin.
  repeat split; try reflexivity.
  rewrite <- !app_assoc. cbn [app].
  change (S (I2C_BUFFER_SIZE + length outside))
    with (1 + (I2C_BUFFER_SIZE + length outside))%nat.
  rewrite !replicate_add. cbn [replicate app]. rewrite <- !app_assoc. reflexivity.
Qed.

Lemma receive_split I2C_BUFFER_SIZE f inside outside :
  length inside = I2C_BUFFER_SIZE -> (length (inside ++ outside) < 256)%nat ->
  let s := run (write_transaction (inside ++ outside))
             (setSlaveReceivedCallback f (boot I2C_BUFFER_SIZE)) in
  history s =
    replicate (S (length (inside ++ outside))) (SetTWCR REQUEST_SEND_WITH_ACK_value)
    ++ [CallReceive (Some f) inside (Z.of_nat (length (inside ++ outside)));
        SetTWCR ENABLE_I2C_value; SetTWCR releaseBus_value] /\
  slaveBuffer s = inside /\
  overrun s = imap (fun i b => ((I2C_BUFFER_SIZE + i)%nat, b)) outside /\
  driverState s = I2C_READY.
Proof.
  intros Hin Hlen. cbv zeta. unfold write_transaction.
  rewrite length_app in *.
  rewrite run_cons, run_app, data_received_app, run_app, run_one.
  destruct (addressed_state I2C_BUFFER_SIZE f) as (Hp1 & Hh1 & Hc1 & Hb1 & Ho1).
  apply (receive_from_addressed I2C_BUFFER_SIZE f inside outside _ Hp1 Hh1 Hc1 Hb1 Ho1 Hin Hlen).
Qed.

(** C1 on the code.  A write transaction of at least [I2C_BUFFER_SIZE] bytes
    (at most 255): the driver answers every data byte with acknowledge, keeps
    the first [I2C_BUFFER_SIZE] bytes in [slaveBuffer] and stores each further
    byte past the end of the array, and on stop calls the registered handler
    with the number of bytes received, not with the capacity. *)
Theorem slave_receive_ignores_capacity I2C_BUFFER_SIZE f bytes :
  (I2C_BUFFER_SIZE <= length bytes < 256)%nat ->
  let s := run (write_transaction bytes)
             (setSlaveReceivedCallback f (boot I2C_BUFFER_SIZE)) in
  history s =
    replicate (S (length bytes)) (SetTWCR REQUEST_SEND_WITH_ACK_value)
    ++ [CallReceive (Some f) (take I2C_BUFFER_SIZE bytes) (Z.of_nat (length bytes));
        SetTWCR ENABLE_I2C_value; SetTWCR releaseBus_value] /\
  slaveBuffer s = take I2C_BUFFER_SIZE bytes /\
  overrun s =
    imap (fun i b => ((I2C_BUFFER_SIZE + i)%nat, b)) (drop I2C_BUFFER_SIZE bytes) /\
  driverState s = I2C_READY.
Proof.
  intros Hlen.
  pose proof (receive_split I2C_BUFFER_SIZE f
                (take I2C_BUFFER_SIZE bytes) (drop I2C_BUFFER_SIZE bytes)) as H.
  rewrite take_drop in H. apply H; [rewrite length_take|]; lia.
Qed.

(** C1 at capacity 4 with [capacity + 3] bytes: the handler is called with
    length 7, and the last three bytes went past the end of the array. *)
Lemma slave_receive_ignores_capacity_witness :
  let s := run (write_transaction [1; 2; 3; 4; 5; 6; 7])
             (setSlaveReceivedCallback 0 (boot 4)) in
  history s =
    replicate 8 (SetTWCR REQUEST_SEND_WITH_ACK_value)
    ++ [CallReceive (Some 0%nat) [1; 2; 3; 4] 7;
        SetTWCR ENABLE_I2C_value; SetTWCR releaseBus_value] /\
  slaveBuffer s = [1; 2; 3; 4] /\
  overrun s = [(4%nat, 5); (5%nat, 6); (6%nat, 7)] /\
  driverState s = I2C_READY.
Proof.
  apply (slave_receive_ignores_capacity 4 0 [1; 2; 3; 4; 5; 6; 7]).
  cbn [length]. lia.
Defined.


(** ** Further properties of the slave build *)

Lemma calls_app h1 h2 : calls (h1 ++ h2) = calls h1 ++ calls h2.
Proof. apply List.filter_app. Qed.

Lemma calls_requests n v : calls (replicate n (SetTWCR v)) = [].
Proof. induction n as [|n IH]; [reflexivity|exact IH]. Qed.

Lemma u8_range z : 0 <= u8 z < 256.
Proof. unfold u8. apply Z.mod_pos_bound. lia. Qed.

Lemma u8_succ p n : u8 (u8 (p + 1) + Z.of_nat n) = u8 (p + Z.of_nat (S n)).
Proof. unfold u8. rewrite Zplus_mod_idemp_l. f_equal. lia. Qed.

(** The data bytes of a write transaction of any length: the cursor counts
    them modulo 256, and nothing but the buffer, the cursor and the registers
    changes. *)
Lemma data_loop_any bytes : forall s,
  0 <= slaveDataPointer s < 256 ->
  let s' := run (data_received bytes) s in
  slaveDataPointer s' = u8 (slaveDataPointer s + Z.of_nat (length bytes)) /\
  history s' =
    history s ++ replicate (length bytes) (SetTWCR REQUEST_SEND_WITH_ACK_value) /\
  slaveReceiveCallBack s' = slaveReceiveCallBack s /\
  lastRequestStatus s' = lastRequestStatus s /\
  driverState s' = driverState s /\
  typeOfCommunication s' = typeOfCommunication s.
Proof.
  induction bytes as [|b bytes IH]; intros s Hp; cbv zeta;
    cbn [data_received map run length] in *.
  - rewrite Z.add_0_r, app_nil_r, u8_small by lia. repeat split; reflexivity.
  - rewrite interrupt_data. cbv zeta. fold (data_received bytes).
    match goal with |- context [run _ ?s1] => set (s' := s1) end.
    assert (Hs : slaveDataPointer s' = u8 (slaveDataPointer s + 1) /\
                 history s' = history s ++ [SetTWCR REQUEST_SEND_WITH_ACK_value] /\
                 slaveReceiveCallBack s' = slaveReceiveCallBack s /\
                 lastRequestStatus s' = lastRequestStatus s /\
                 driverState s' = driverState s /\
                 typeOfCommunication s' = typeOfCommunication s)
      by (subst s'; sim; unfold store_slaveBuffer;
          destruct (_ <? _)%nat; sim; repeat split; reflexivity).
    destruct Hs as (Hp' & Hh' & Hc' & He' & Hd' & Ht').
    destruct (IH s') as (Hp2 & Hh2 & Hc2 & He2 & Hd2 & Ht2);
      [rewrite Hp'; apply u8_range|].
    clearbody s'. cbv zeta in *.
    rewrite Hp2, Hh2, Hc2, He2, Hd2, Ht2, Hp', Hh', Hc', He', Hd', Ht', u8_succ.
    rewrite <- app_assoc. repeat split; reflexivity.
Qed.

Lemma addressed_facts d s :
  let s1 := interrupt (SR_START_TRANSMISSION_RECEIVED_60, d) s in
  slaveDataPointer s1 = 0 /\
  history s1 = history s ++ [SetTWCR REQUEST_SEND_WITH_ACK_value] /\
  slaveReceiveCallBack s1 = slaveReceiveCallBack s /\
  lastRequestStatus s1 = lastRequestStatus s /\
  slaveBuffer s1 = slaveBuffer s /\
  overrun s1 = overrun s /\
  driverState s1 = I2C_SLAVE_RECEIVE /\
  typeOfCommunication s1 = SLAVE_RECEIVED.
Proof. cbv zeta. rewrite interrupt_addressed. sim. repeat split; reflexivity. Qed.

(** A write transaction that fits the buffer, with a handler registered: on
    stop the handler is called, exactly once, with the number of data bytes
    as its count; nothing is stored outside the array, the driver releases
    the bus and is idle again, and [lastRequestStatus] is not touched. *)
Theorem handler_called_once s f bytes :
  slaveReceiveCallBack s = Some f ->
  (length bytes <= length (slaveBuffer s) <= 128)%nat ->
  let s' := run (write_transaction bytes) s in
  calls (history s') =
    calls (history s)
    ++ [CallReceive (Some f) (slaveBuffer s') (Z.of_nat (length bytes))] /\
  overrun s' = overrun s /\
  TWCR s' = releaseBus_value /\
  driverState s' = I2C_READY /\
  lastRequestStatus s' = lastRequestStatus s.
Proof.
  intros Hf Hfit. cbv zeta. unfold write_transaction. rewrite run_cons, run_app, run_one.
  destruct (addressed_facts 0 s) as (Hp1 & Hh1 & Hc1 & He1 & Hb1 & Ho1 & _).
  revert Hp1 Hh1 Hc1 He1 Hb1 Ho1.
  generalize (interrupt (SR_START_TRANSMISSION_RECEIVED_60, 0) s).
  intros s1 Hp1 Hh1 Hc1 He1 Hb1 Ho1.
  destruct (data_loop_any bytes s1) as (Hp2 & Hh2 & Hc2 & He2 & _); [lia|].
  destruct (data_loop_inside bytes s1 0 Hp1) as (_ & Ho2); [rewrite Hb1; lia|lia|].
  revert Hp2 Hh2 Hc2 He2 Ho2. generalize (run (data_received bytes) s1).
  intros s2 Hp2 Hh2 Hc2 He2 Ho2.
  rewrite interrupt_stop. cbv zeta. sim.
  rewrite Hh2, Hh1, Hc2, Hc1, Hf, Hp2, Hp1, He2, He1, Ho2, Ho1.
  rewrite !calls_app, calls_requests. cbn [calls List.filter app].
  rewrite !app_nil_r, Z.add_0_l, u8_small by lia. repeat split; reflexivity.
Qed.

(** Three bytes into a buffer of four. *)
Lemma handler_called_once_witness :
  let s' := run (write_transaction [1; 2; 3]) (setSlaveReceivedCallback 7 (boot 4)) in
  calls (history s') = [CallReceive (Some 7%nat) [1; 2; 3; 0] 3] /\
  driverState s' = I2C_READY.
Proof.
  cbv zeta.
  pose proof (handler_called_once (setSlaveReceivedCallback 7 (boot 4)) 7%nat [1; 2; 3]
                eq_refl ltac:(vm_compute; lia)) as H.
  cbv zeta in H. destruct H as (Hc & _ & _ & Hd & _).
  split; [|exact Hd]. etransitivity; [exact Hc|]. vm_compute. reflexivity.
Defined.

(** The handler is read when the stop condition arrives: a handler registered
    in the middle of a write transaction that fits the buffer is the one that
    is called, with the count of all the bytes of the transaction. *)
Theorem handler_is_read_at_stop s g bytes1 bytes2 :
  (length (bytes1 ++ bytes2) <= length (slaveBuffer s) <= 128)%nat ->
  let s' := run (data_received bytes2 ++ [(SR_STOP_RECEIVED, 0)])
              (setSlaveReceivedCallback g
                 (run ((SR_START_TRANSMISSION_RECEIVED_60, 0) :: data_received bytes1) s)) in
  calls (history s') =
    calls (history s)
    ++ [CallReceive (Some g) (slaveBuffer s')
                    (Z.of_nat (length (bytes1 ++ bytes2)))] /\
  overrun s' = overrun s.
Proof.
  rewrite length_app. intros Hfit. cbv zeta. rewrite run_cons, run_app, run_one.
  destruct (addressed_facts 0 s) as (Hp1 & Hh1 & _ & _ & Hb1 & Ho1 & _).
  revert Hp1 Hh1 Hb1 Ho1.
  generalize (interrupt (SR_START_TRANSMISSION_RECEIVED_60, 0) s).
  intros s1 Hp1 Hh1 Hb1 Ho1.
  destruct (data_loop bytes1 s1 0 Hp1) as (Hp2 & Hh2 & _ & Hl2); [lia|].
  destruct (data_loop_inside bytes1 s1 0 Hp1) as (_ & Ho2); [rewrite Hb1; lia|lia|].
  revert Hp2 Hh2 Hl2 Ho2. generalize (run (data_received bytes1) s1).
  intros s2 Hp2 Hh2 Hl2 Ho2.
  destruct (data_loop bytes2 (setSlaveReceivedCallback g s2) (length bytes1))
    as (Hp3 & Hh3 & Hc3 & _); [exact Hp2|lia|].
  destruct (data_loop_inside bytes2 (setSlaveReceivedCallback g s2) (length bytes1))
    as (_ & Ho3); [exact Hp2|sim; rewrite Hl2, Hb1; lia|lia|].
  revert Hp3 Hh3 Hc3 Ho3.
  generalize (run (data_received bytes2) (setSlaveReceivedCallback g s2)).
  sim. intros s3 Hp3 Hh3 Hc3 Ho3.
  rewrite interrupt_stop. cbv zeta. sim.
  rewrite Hh3, Hh2, Hh1, Hc3, Hp3, Ho3, Ho2, Ho1.
  rewrite !calls_app, !calls_requests. cbn [calls List.filter app Nat.add].
  rewrite !app_nil_r. split; reflexivity.
Qed.

(** A handler registered after the first of two bytes. *)
Lemma handler_is_read_at_stop_witness :
  calls (history
           (run (data_received [2] ++ [(SR_STOP_RECEIVED, 0)])
              (setSlaveReceivedCallback 9
                 (run ((SR_START_TRANSMISSION_RECEIVED_60, 0) :: data_received [1])
                    (boot 4))))) =
  [CallReceive (Some 9%nat) [1; 2; 0; 0] 2].
Proof.
  pose proof (handler_is_read_at_stop (boot 4) 9%nat [1] [2]
                ltac:(vm_compute; lia)) as H.
  cbv zeta in H. destruct H as (H & _).
  etransitivity; [exact H|]. vm_compute. reflexivity.
Defined.

(** A write transaction that fits the buffer, with a handler registered: the
    bytes are stored from index 0 in the order received, the cells behind
    them keep the bytes of earlier transactions, nothing is stored outside
    the array, every byte is acknowledged, and on stop the handler is called
    with the number of bytes while the array holds them. *)
Theorem write_within_capacity s f bytes :
  slaveReceiveCallBack s = Some f ->
  (length bytes <= length (slaveBuffer s) <= 128)%nat ->
  let s' := run (write_transaction bytes) s in
  slaveBuffer s' = bytes ++ drop (length bytes) (slaveBuffer s) /\
  overrun s' = overrun s /\
  history s' =
    history s
    ++ replicate (S (length bytes)) (SetTWCR REQUEST_SEND_WITH_ACK_value)
    ++ [CallReceive (Some f)
                    (bytes ++ drop (length bytes) (slaveBuffer s))
                    (Z.of_nat (length bytes));
        SetTWCR ENABLE_I2C_value; SetTWCR releaseBus_value].
Proof.
  intros Hf Hfit. cbv zeta. unfold write_transaction.
  rewrite run_cons, run_app, run_one.
  destruct (addressed_facts 0 s) as (Hp1 & Hh1 & Hc1 & _ & Hb1 & Ho1 & _).
  revert Hp1 Hh1 Hc1 Hb1 Ho1.
  generalize (interrupt (SR_START_TRANSMISSION_RECEIVED_60, 0) s).
  intros s1 Hp1 Hh1 Hc1 Hb1 Ho1.
  destruct (data_loop bytes s1 0 Hp1) as (Hp2 & Hh2 & Hc2 & _); [lia|].
  destruct (data_loop_inside bytes s1 0 Hp1) as (Hb2 & Ho2); [rewrite Hb1; lia|lia|].
  revert Hp2 Hh2 Hc2 Hb2 Ho2. generalize (run (data_received bytes) s1).
  intros s2 Hp2 Hh2 Hc2 Hb2 Ho2.
  rewrite interrupt_stop. cbv zeta. sim.
  rewrite Hh2, Hh1, Hc2, Hc1, Hf, Hp2, Hb2, Ho2, Hb1, Ho1, take_0.
  cbn [app Nat.add replicate]. rewrite <- !app_assoc. cbn [app].
  repeat split; reflexivity.
Qed.

(** Two bytes into a buffer of four that holds an earlier transaction. *)
Lemma write_within_capacity_witness :
  slaveBuffer (run (write_transaction [1; 2])
                 (run (write_transaction [5; 6; 7])
                    (setSlaveReceivedCallback 0 (boot 4)))) = [1; 2; 7; 0].
Proof.
  pose proof (write_within_capacity
                (run (write_transaction [5; 6; 7]) (setSlaveReceivedCallback 0 (boot 4)))
                0%nat [1; 2] ltac:(vm_compute; reflexivity) ltac:(vm_compute; lia)) as H.
  cbv zeta in H. destruct H as (H & _).
  etransitivity; [exact H|]. vm_compute. reflexivity.
Defined.

(** ** The interrupt routine on the events of a read transaction *)

Lemma interrupt_transmit_start d s :
  interrupt (ST_START_TRANSMISSION_RECEIVED_A8, d) s =
  transmit_next
    (set_slaveDataPointer 0
       (set_slaveTransmitBuffer (slaveTransmitCallBack s)
          (set_driverState I2C_SLAVE_TRANSMIT
             (set_typeOfCommunication SLAVE_SEND
                (set_TWSR ST_START_TRANSMISSION_RECEIVED_A8 s))))).
Proof. reflexivity. Qed.

Lemma interrupt_transmit_data d s :
  interrupt (ST_DATA_TRANSMIT_ACK_RECEIVED_B8, d) s =
  transmit_next (set_TWSR ST_DATA_TRANSMIT_ACK_RECEIVED_B8 s).
Proof. reflexivity. Qed.

Lemma interrupt_transmit_end d s :
  interrupt (ST_DATA_TRANSMIT_NO_ACK_RECEIVED_C0, d) s =
  set_driverState I2C_READY
    (REQUEST_SEND_WITH_ACK (set_TWSR ST_DATA_TRANSMIT_NO_ACK_RECEIVED_C0 s)).
Proof. reflexivity. Qed.

Lemma interrupt_slave_bus_error d s :
  interrupt (COMMON_BUS_EEOR_00, d) s =
  set_driverState I2C_READY
    (SEND_STOP_CONDITION
       (set_lastRequestStatus I2C_BUS_ERROR (set_TWSR COMMON_BUS_EEOR_00 s))).
Proof. reflexivity. Qed.

Lemma transmit_next_facts s i b :
  slaveDataPointer s = Z.of_nat i -> (i < 255)%nat ->
  slaveTransmitBuffer s !! i = Some b ->
  let s' := transmit_next s in
  history s' =
    history s
    ++ [SetTWDR b;
        SetTWCR (if Z.of_nat (S i) <? nbByteToTransmit s
                 then REQUEST_SEND_WITH_ACK_value
                 else REQUEST_SEND_WITHOUT_ACK_value)] /\
  slaveDataPointer s' = Z.of_nat (S i) /\
  slaveTransmitBuffer s' = slaveTransmitBuffer s /\
  nbByteToTransmit s' = nbByteToTransmit s /\
  driverState s' = driverState s /\
  typeOfCommunication s' = typeOfCommunication s /\
  lastRequestStatus s' = lastRequestStatus s.
Proof.
  intros Hp Hi Hb. cbv zeta. unfold transmit_next. cbv zeta. sim.
  rewrite Hp, Nat2Z.id, Hb, u8_small by lia.
  replace (Z.of_nat i + 1) with (Z.of_nat (S i)) by lia. cbn [default].
  destruct (Z.of_nat (S i) <? nbByteToTransmit s); sim;
    rewrite <- !app_assoc; repeat split; reflexivity.
Qed.

Lemma transmit_loop m : forall s i,
  slaveDataPointer s = Z.of_nat i ->
  (i + m <= length (slaveTransmitBuffer s))%nat -> (i + m < 256)%nat ->
  let s' := run (replicate m (ST_DATA_TRANSMIT_ACK_RECEIVED_B8, 0)) s in
  history s' =
    history s
    ++ transmit_effects (nbByteToTransmit s) i (take m (drop i (slaveTransmitBuffer s))) /\
  slaveDataPointer s' = Z.of_nat (i + m) /\
  driverState s' = driverState s /\
  typeOfCommunication s' = typeOfCommunication s /\
  lastRequestStatus s' = lastRequestStatus s.
Proof.
  induction m as [|m IH]; intros s i Hp Hbuf Hlen; cbv zeta.
  - cbn [replicate run take transmit_effects]. rewrite app_nil_r, Nat.add_0_r.
    repeat split; first [reflexivity|assumption].
  - cbn [replicate]. rewrite run_cons, interrupt_transmit_data.
    assert (Hin : (i < length (slaveTransmitBuffer s))%nat) by lia.
    apply lookup_lt_is_Some_2 in Hin as [b Hb].
    destruct (transmit_next_facts (set_TWSR ST_DATA_TRANSMIT_ACK_RECEIVED_B8 s) i b)
      as (Hh' & Hp' & Hb' & Hn' & Hd' & Ht' & He'); [exact Hp|lia|exact Hb|].
    revert Hh' Hp' Hb' Hn' Hd' Ht' He'.
    generalize (transmit_next (set_TWSR ST_DATA_TRANSMIT_ACK_RECEIVED_B8 s)).
    sim. intros s' Hh' Hp' Hb' Hn' Hd' Ht' He'.
    destruct (IH s' (S i) Hp') as (Hh2 & Hp2 & Hd2 & Ht2 & He2);
      [rewrite Hb'; lia|lia|].
    cbv zeta in *. rewrite Hh2, Hp2, Hd2, Ht2, He2, Hh', Hb', Hn', Hd', Ht', He'.
    rewrite (drop_S _ _ _ Hb). cbn [take transmit_effects].
    rewrite <- !app_assoc. cbn [app].
    repeat split; try reflexivity. f_equal. lia.
Qed.

Lemma data_writes_transmit n bytes : forall k,
  data_writes (transmit_effects n k bytes) = bytes.
Proof.
  induction bytes as [|b bytes IH]; intros k; [reflexivity|].
  cbn [transmit_effects].
  change (b :: data_writes (transmit_effects n (S k) bytes) = b :: bytes).
  rewrite IH. reflexivity.
Qed.

(** A read transaction in which the master takes [k] bytes of a registered
    provider and size (its buffer holding at least [k]): the driver loads the
    first [k] bytes of the buffer in order, asking after byte number [i]
    (counted from 1) for an acknowledge exactly when [i] is below the
    registered size; when the master ends the transfer it re-arms the
    interface and is idle. *)
Theorem slave_transmit s buf size k :
  (1 <= k <= length buf)%nat -> (k < 256)%nat ->
  let s' := run (read_transaction k) (setSlaveTransmitCallback buf size s) in
  history s' =
    history s ++ transmit_effects size 0 (take k buf)
    ++ [SetTWCR REQUEST_SEND_WITH_ACK_value] /\
  data_writes (history s') = data_writes (history s) ++ take k buf /\
  slaveDataPointer s' = Z.of_nat k /\
  driverState s' = I2C_READY /\
  typeOfCommunication s' = SLAVE_SEND /\
  lastRequestStatus s' = lastRequestStatus s.
Proof.
  intros Hk Hlen. cbv zeta.
  match goal with |- ?A /\ ?B /\ ?C => cut (A /\ C) end.
  { intros (H1 & H2). split; [exact H1|]. split; [|exact H2]. rewrite H1.
    unfold data_writes. rewrite !omap_app.
    fold (data_writes (transmit_effects size 0 (take k buf))).
    rewrite data_writes_transmit.
    change (omap data_of [SetTWCR REQUEST_SEND_WITH_ACK_value]) with (@nil Z).
    rewrite app_nil_r. reflexivity. }
  destruct buf as [|b0 buf]; [cbn [length] in Hk; lia|].
  destruct k as [|k]; [lia|].
  unfold read_transaction, setSlaveTransmitCallback.
  rewrite run_cons, run_app, run_one, interrupt_transmit_start.
  rewrite Nat.sub_succ, Nat.sub_0_r.
  match goal with |- context [transmit_next ?s0] =>
    destruct (transmit_next_facts s0 0 b0)
      as (Hh' & Hp' & Hb' & Hn' & Hd' & Ht' & He'); [reflexivity|lia|reflexivity|];
    revert Hh' Hp' Hb' Hn' Hd' Ht' He'; generalize (transmit_next s0)
  end.
  sim. intros s1 Hh' Hp' Hb' Hn' Hd' Ht' He'.
  cbn [length] in Hk.
  destruct (transmit_loop k s1 1 Hp') as (Hh2 & Hp2 & Hd2 & Ht2 & He2);
    [rewrite Hb'; cbn [length]; lia|lia|].
  revert Hh2 Hp2 Hd2 Ht2 He2.
  generalize (run (replicate k (ST_DATA_TRANSMIT_ACK_RECEIVED_B8, 0)) s1).
  intros s2 Hh2 Hp2 Hd2 Ht2 He2.
  rewrite interrupt_transmit_end. sim.
  rewrite Hh2, Hh', Hb', Hn', Hp2, Ht2, Ht', He2, He'.
  cbn [drop take transmit_effects]. rewrite <- !app_assoc.
  repeat split; reflexivity.
Qed.

(** Three bytes on offer, all three taken. *)
Lemma slave_transmit_witness :
  let s' := run (read_transaction 3) (setSlaveTransmitCallback [1; 2; 3] 3 (boot 4)) in
  data_writes (history s') = [1; 2; 3] /\ driverState s' = I2C_READY.
Proof.
  cbv zeta.
  pose proof (slave_transmit (boot 4) [1; 2; 3] 3 3
                ltac:(cbn; lia) ltac:(lia)) as H.
  cbv zeta in H. destruct H as (_ & Hw & _ & Hd & _). split; [exact Hw|exact Hd].
Defined.

(** With a registered size of 0 the driver still answers a read with the
    first byte of the provider's buffer, exactly as with size 1: it loads the
    byte and asks for no acknowledge. *)
Theorem transmit_of_size_zero_sends_a_byte s b buf size :
  size <= 1 ->
  let s' := interrupt (ST_START_TRANSMISSION_RECEIVED_A8, 0)
              (setSlaveTransmitCallback (b :: buf) size s) in
  history s' = history s ++ [SetTWDR b; SetTWCR REQUEST_SEND_WITHOUT_ACK_value] /\
  TWDR s' = b /\
  slaveDataPointer s' = 1 /\
  driverState s' = I2C_SLAVE_TRANSMIT.
Proof.
  intros Hs. cbv zeta. unfold setSlaveTransmitCallback.
  rewrite interrupt_transmit_start. unfold transmit_next. cbv zeta. sim.
  change (u8 (0 + 1)) with 1. change (Z.to_nat 0) with 0%nat. cbn [lookup list_lookup default].
  destruct (Z.ltb_spec 1 size) as [H|_]; [lia|]. sim.
  rewrite <- !app_assoc. repeat split; reflexivity.
Qed.

(** Size 0: the byte 5 is loaded all the same. *)
Lemma transmit_of_size_zero_sends_a_byte_witness :
  TWDR (interrupt (ST_START_TRANSMISSION_RECEIVED_A8, 0)
          (setSlaveTransmitCallback [5] 0 (boot 4))) = 5.
Proof.
  pose proof (transmit_of_size_zero_sends_a_byte (boot 4) 5 [] 0 ltac:(lia)) as H.
  cbv zeta in H. destruct H as (_ & H & _). exact H.
Defined.


Lemma interrupt_error_report e s :
  lastRequestStatus (interrupt e s) = lastRequestStatus s \/
  lastRequestStatus (interrupt e s) = I2C_BUS_ERROR.
Proof.
  unfold interrupt, ISR, twi_event, transmit_next, store_slaveBuffer. cbv zeta.
  repeat match goal with
         | |- context [if ?c then _ else _] => destruct c
         end; sim; auto.
Qed.

Lemma status_after_event e s : GET_COMMUNICATION_STATUS (twi_event e s) = status_of e.
Proof. unfold twi_event. cbv zeta. destruct (one_of _ _); reflexivity. Qed.

(** A defined step stores nothing outside the array. *)
Lemma defined_step_in_bounds e s :
  defined_step e s = true -> overrun (interrupt e s) = overrun s.
Proof.
  unfold defined_step, interrupt, ISR. cbv zeta. rewrite !status_after_event.
  unfold twi_event, one_of. cbv zeta. cbn [existsb].
  generalize (status_of e). intros st.
  repeat match goal with
         | |- context [?a =? ?b] =>
             first [ is_var a; destruct (Z.eqb_spec a b) as [->|?]
                   | let v := eval vm_compute in (a =? b) in change (a =? b) with v ]
         end; cbn [orb]; cbv iota.
  all: unfold transmit_next, store_slaveBuffer; cbv zeta; sim.
  all: try (intros ->; reflexivity).
  all: intros _; repeat match goal with
                        | |- context [if ?c then _ else _] => destruct c
                        end; reflexivity.
Qed.

Lemma defined_in_bounds evs : forall s,
  defined evs s = true -> overrun (run evs s) = overrun s.
Proof.
  induction evs as [|e evs IH]; intros s Hd; [reflexivity|].
  cbn [defined] in Hd. apply andb_true_iff in Hd as [He Hd].
  rewrite run_cons, IH by exact Hd. apply defined_step_in_bounds. exact He.
Qed.

(** The slave build reports nothing but bus errors: over any events that
    keep the interrupt routine within defined behaviour, no store leaves the
    array, [lastRequestStatus] is afterwards what it was or [I2C_BUS_ERROR],
    and once it is [I2C_BUS_ERROR] it stays so. *)
Theorem slave_reports_only_bus_errors evs s :
  defined evs s = true ->
  overrun (run evs s) = overrun s /\
  (lastRequestStatus (run evs s) = lastRequestStatus s \/
   lastRequestStatus (run evs s) = I2C_BUS_ERROR) /\
  (lastRequestStatus s = I2C_BUS_ERROR ->
   lastRequestStatus (run evs s) = I2C_BUS_ERROR).
Proof.
  intros Hd. split; [apply defined_in_bounds; exact Hd|]. clear Hd.
  assert (H : lastRequestStatus (run evs s) = lastRequestStatus s \/
              lastRequestStatus (run evs s) = I2C_BUS_ERROR).
  { revert s. induction evs as [|e evs IH]; intros s; [left; reflexivity|].
    rewrite run_cons.
    destruct (IH (interrupt e s)) as [H|H]; [|right; exact H].
    rewrite H. apply interrupt_error_report. }
  split; [exact H|]. intros Hs. destruct H as [H|H]; congruence.
Qed.

(** A bus error followed by a complete write transaction that fits the
    buffer, with a handler registered. *)
Lemma slave_reports_only_bus_errors_witness :
  lastRequestStatus
    (run (write_transaction [1])
       (run [(COMMON_BUS_EEOR_00, 0)] (setSlaveReceivedCallback 0 (boot 4)))) =
  I2C_BUS_ERROR.
Proof.
  pose proof (slave_reports_only_bus_errors (write_transaction [1])
                (run [(COMMON_BUS_EEOR_00, 0)] (setSlaveReceivedCallback 0 (boot 4)))
                ltac:(vm_compute; reflexivity)) as (_ & _ & H).
  exact (H ltac:(vm_compute; reflexivity)).
Defined.

(** [initialisation] of the slave build with an address the header accepts:
    [TWAR] holds the address in its upper seven bits with the general-call
    bit clear, the controller is enabled with acknowledge and interrupt and
    without clearing [TWINT], and the driver is idle. *)
Theorem own_address_register I2C_ADDRESS c :
  0 <= I2C_ADDRESS <= 127 ->
  let c' := initialisation I2C_ADDRESS c in
  TWAR c' = 2 * I2C_ADDRESS /\
  Z.shiftr (TWAR c') 1 = I2C_ADDRESS /\
  Z.testbit (TWAR c') 0 = false /\
  TWCR (core c') = ENABLE_I2C_value /\
  has_ack (TWCR (core c')) = true /\
  clears_TWINT (TWCR (core c')) = false /\
  driverState (core c') = I2C_READY /\
  history (core c') = history (core c) ++ [SetTWCR ENABLE_I2C_value].
Proof.
  intros Ha. cbv zeta. unfold initialisation. cbv zeta. cbn [TWAR core]. sim.
  rewrite Z.shiftl_mul_pow2 by lia. change (2 ^ 1) with 2.
  rewrite u8_small by lia.
  replace (I2C_ADDRESS * 2) with (2 * I2C_ADDRESS) by lia.
  repeat split; try reflexivity.
  - rewrite Z.shiftr_div_pow2 by lia. change (2 ^ 1) with 2.
    rewrite Z.mul_comm. apply Z.div_mul. lia.
  - apply Z.testbit_even_0.
Qed.

(** The address [0x42]. *)
Lemma own_address_register_witness :
  TWAR (initialisation 0x42 (mkChip (boot 4) 0)) = 0x84.
Proof.
  pose proof (own_address_register 0x42 (mkChip (boot 4) 0) ltac:(lia)) as H.
  cbv zeta in H. destruct H as (H & _). exact H.
Defined.

End SlaveProofs.
